(** * The in-memory todo manager of [todo_frontend/App.tsx]

    A shallow embedding of the state and the event handlers of the [App]
    component (React Native), and the properties of its todo store, filter
    projection and edit session.

    The component owns five pieces of React state ([todos], [filter],
    [isModalVisible], [currentTitle], [editingId]).  Every handler reads
    the state of the render it was created in before it queues any update,
    and every [setTodos] call passes an updater function, so a handler is
    modelled as a state transformer that runs to completion.

    What a handler takes from its environment is explicit: the values
    [Date.now()] returns, the base-36 renderings [Math.random()] produces,
    [Platform.OS], and the user's answer to a confirmation dialog.  What it
    does to its environment apart from the React state (alerts, dialogs,
    keyboard, focus timer) is recorded in an output log. *)

From Stdlib Require Import List ZArith NArith Bool Arith Lia String Ascii DecimalString.
Import ListNotations.

(* ================================================================== *)
(** ** JavaScript strings *)
(* ================================================================== *)

Module Js.

(** A JavaScript string is a sequence of UTF-16 code units. *)
Definition jsstring : Type := list N.

(** An ASCII literal of the source as a sequence of code units. *)
Definition lit (s : string) : jsstring :=
  map N_of_ascii (list_ascii_of_string s).

(** [a === b] on strings. *)
Fixpoint str_eqb (a b : jsstring) : bool :=
  match a, b with
  | [], [] => true
  | x :: a', y :: b' => N.eqb x y && str_eqb a' b'
  | _, _ => false
  end.

(** ECMAScript WhiteSpace and LineTerminator code points, the characters
    [String.prototype.trim] strips: TAB, LF, VT, FF, CR, SP, NBSP, the
    space separators U+1680, U+2000..U+200A, U+202F, U+205F, U+3000, the
    line and paragraph separators U+2028 and U+2029, and U+FEFF. *)
Definition is_white_space (c : N) : bool :=
  ((9 <=? c) && (c <=? 13) || (c =? 32) || (c =? 160) || (c =? 5760)
   || (8192 <=? c) && (c <=? 8202) || (c =? 8232) || (c =? 8233)
   || (c =? 8239) || (c =? 8287) || (c =? 12288) || (c =? 65279))%N.

(** [trimStart]: drop the leading white space. *)
Fixpoint trimStart (s : jsstring) : jsstring :=
  match s with
  | [] => []
  | c :: r => if is_white_space c then trimStart r else s
  end.

(** [trimEnd]: drop the trailing white space. *)
Definition trimEnd (s : jsstring) : jsstring := rev (trimStart (rev s)).

(** [s.trim()]. *)
Definition trim (s : jsstring) : jsstring := trimEnd (trimStart s).

(** [s.slice(b, e)] for indices [0 <= b <= e]. *)
Definition slice (s : jsstring) (b e : nat) : jsstring :=
  firstn (e - b) (skipn b s).

(** The decimal rendering of an integral Number, as a template literal
    [`${n}`] produces it. *)
Definition decimal (n : Z) : jsstring :=
  lit (NilZero.string_of_int (Z.to_int n)).

(** ToBoolean on a string: only the empty string is falsy. *)
Definition truthy (s : jsstring) : bool :=
  match s with [] => false | _ :: _ => true end.

(** The value a call evaluates to.  Every handler of the component is a
    [void] function: it ends in a bare [return] or falls off its end. *)
Inductive JsValue : Type :=
| JsUndefined
| JsNumber (n : Z).

End Js.

(* ================================================================== *)
(** ** The component: state, environment, handlers *)
(* ================================================================== *)

Module App.
Import Js.

(** [type Filter = 'all' | 'active' | 'completed'].  The mode 'completed'
    is [completed_only] here, [completed] being the field of a todo. *)
Inductive Filter : Type := all | active | completed_only.

(** [type Todo] *)
Record Todo : Type := mkTodo {
  id : jsstring;
  title : jsstring;
  completed : bool;
  createdAt : Z;
  updatedAt : option Z
}.

(** The React state of [App]. *)
Record AppState : Type := mkState {
  todos : list Todo;
  filter : Filter;
  isModalVisible : bool;
  currentTitle : jsstring;
  editingId : option jsstring
}.

(** [Platform.OS]; the handlers only test it against ['web']. *)
Inductive OS : Type := web | ios | android | windows | macos.

(** What a handler does besides updating the React state. *)
Inductive Effect : Type :=
| AlertNotice (heading message : jsstring)
    (* Alert.alert(heading, message): a notice with no buttons of its own *)
| AlertButtons (heading message : jsstring) (buttons : list jsstring)
    (* Alert.alert(heading, message, buttons) *)
| Confirm (message : jsstring)             (* confirm(message) *)
| KeyboardDismiss                          (* Keyboard.dismiss() *)
| FocusInputAfter (ms : Z).                (* setTimeout(focus, ms) *)

(** The environment: the platform, the successive values of [Date.now()]
    and the successive renderings [Math.random().toString(36)], with the
    number of values already consumed. *)
Record World : Type := mkWorld {
  platform : OS;
  clock : nat -> Z;
  ticks : nat;
  random36 : nat -> jsstring;
  draws : nat
}.

Record Machine : Type := mkMachine {
  ui : AppState;
  env : World;
  out : list Effect
}.

(** Handlers run in a state monad over the machine. *)
Definition M (A : Type) : Type := Machine -> A * Machine.

Definition ret {A} (a : A) : M A := fun m => (a, m).

Definition bind {A B} (c : M A) (k : A -> M B) : M B :=
  fun m => let (a, m') := c m in k a m'.

Notation "x <- c ;; k" := (bind c (fun x => k))
  (at level 61, c at next level, right associativity).
Notation "c ;; k" := (bind c (fun _ => k))
  (at level 61, right associativity).

(** The machine a handler leaves, and the value it returns. *)
Definition exec {A} (c : M A) (m : Machine) : Machine := snd (c m).
Definition eval {A} (c : M A) (m : Machine) : A := fst (c m).

(** The effects a handler added to the log. *)
Definition emitted {A} (c : M A) (m : Machine) : list Effect :=
  skipn (List.length (out m)) (out (exec c m)).

Fixpoint mapM {A B} (f : A -> M B) (l : list A) : M (list B) :=
  match l with
  | [] => ret []
  | x :: r => y <- f x ;; ys <- mapM f r ;; ret (y :: ys)
  end.

(** *** Primitives *)

Definition getState : M AppState := fun m => (ui m, m).

Definition Date_now : M Z := fun m =>
  let w := env m in
  (clock w (ticks w),
   mkMachine (ui m)
     (mkWorld (platform w) (clock w) (S (ticks w)) (random36 w) (draws w))
     (out m)).

(** [Math.random().toString(36)] *)
Definition Math_random_toString36 : M jsstring := fun m =>
  let w := env m in
  (random36 w (draws w),
   mkMachine (ui m)
     (mkWorld (platform w) (clock w) (ticks w) (random36 w) (S (draws w)))
     (out m)).

Definition Platform_OS : M OS := fun m => (platform (env m), m).

Definition emit (e : Effect) : M unit := fun m =>
  (tt, mkMachine (ui m) (env m) (out m ++ [e])).

Definition modify (f : AppState -> AppState) : M unit := fun m =>
  (tt, mkMachine (f (ui m)) (env m) (out m)).

(** [setTodos(prev => upd(prev))] *)
Definition setTodos (upd : list Todo -> M (list Todo)) : M unit :=
  s <- getState ;;
  l <- upd (todos s) ;;
  modify (fun s' =>
    mkState l (filter s') (isModalVisible s') (currentTitle s') (editingId s')).

Definition setFilter (f : Filter) : M unit :=
  modify (fun s =>
    mkState (todos s) f (isModalVisible s) (currentTitle s) (editingId s)).

Definition setModalVisible (b : bool) : M unit :=
  modify (fun s =>
    mkState (todos s) (filter s) b (currentTitle s) (editingId s)).

Definition setCurrentTitle (t : jsstring) : M unit :=
  modify (fun s =>
    mkState (todos s) (filter s) (isModalVisible s) t (editingId s)).

Definition setEditingId (e : option jsstring) : M unit :=
  modify (fun s =>
    mkState (todos s) (filter s) (isModalVisible s) (currentTitle s) e).

(** [confirm(message)]: the dialog is shown and the user's answer comes
    back. *)
Definition confirm (message : jsstring) (answer : bool) : M bool :=
  emit (Confirm message) ;; ret answer.

(** [Alert.alert(heading, message, [Cancel, action])]: the dialog is shown;
    [action] runs when the user presses the second button. *)
Definition alertWithAction (heading message cancel label : jsstring)
    (action : M unit) (answer : bool) : M unit :=
  emit (AlertButtons heading message [cancel; label]) ;;
  if answer then action else ret tt.

(** *** The filter projection ([filteredTodos]) *)

Definition filteredTodos (s : AppState) : list Todo :=
  match filter s with
  | active => List.filter (fun t => negb (completed t)) (todos s)
  | completed_only => List.filter (fun t => completed t) (todos s)
  | all => todos s
  end.

(** What a render reads: the [useMemo] that computes [filteredTodos] from
    the current state. *)
Definition renderFilteredTodos : M (list Todo) :=
  s <- getState ;;
  ret (filteredTodos s).

(** *** The handlers *)

Definition openAddModal : M JsValue :=
  setEditingId None ;;
  setCurrentTitle [] ;;
  setModalVisible true ;;
  emit (FocusInputAfter 50) ;;
  ret JsUndefined.

Definition openEditModal (id0 : jsstring) : M JsValue :=
  s <- getState ;;
  match List.find (fun x => str_eqb (id x) id0) (todos s) with
  | None => ret JsUndefined
  | Some t =>
      setEditingId (Some id0) ;;
      setCurrentTitle (title t) ;;
      setModalVisible true ;;
      emit (FocusInputAfter 50) ;;
      ret JsUndefined
  end.

(** The error notice of [saveTodo]. *)
Definition emptyTitleNotice : Effect :=
  AlertNotice (lit "Empty title") (lit "Please enter a title for your todo.").

(** [`${Date.now()}-${Math.random().toString(36).slice(2, 8)}`] *)
Definition freshId : M jsstring :=
  n <- Date_now ;;
  r <- Math_random_toString36 ;;
  ret (decimal n ++ lit "-" ++ slice r 2 8).

Definition saveTodo : M JsValue :=
  s <- getState ;;
  let title0 := trim (currentTitle s) in
  if negb (truthy title0) then
    emit emptyTitleNotice ;;
    ret JsUndefined
  else
    (match editingId s with
     | Some ((_ :: _) as eid) =>
         setTodos (mapM (fun t =>
           if str_eqb (id t) eid then
             now <- Date_now ;;
             ret (mkTodo (id t) title0 (completed t) (createdAt t) (Some now))
           else ret t))
     | _ =>
         id1 <- freshId ;;
         now <- Date_now ;;
         let newTodo := mkTodo id1 title0 false now None in
         setTodos (fun prev => ret (newTodo :: prev))
     end) ;;
    setModalVisible false ;;
    setCurrentTitle [] ;;
    setEditingId None ;;
    emit KeyboardDismiss ;;
    ret JsUndefined.

Definition toggleComplete (id0 : jsstring) : M JsValue :=
  setTodos (mapM (fun t =>
    if str_eqb (id t) id0 then
      now <- Date_now ;;
      ret (mkTodo (id t) (title t) (negb (completed t)) (createdAt t) (Some now))
    else ret t)) ;;
  ret JsUndefined.

Definition deleteTodo (id0 : jsstring) (answer : bool) : M JsValue :=
  let performDelete :=
    setTodos (fun prev =>
      ret (List.filter (fun t => negb (str_eqb (id t) id0)) prev)) in
  o <- Platform_OS ;;
  match o with
  | web =>
      ok <- confirm (lit "Delete this todo?") answer ;;
      (if ok then performDelete else ret tt) ;;
      ret JsUndefined
  | _ =>
      alertWithAction (lit "Delete todo")
        (lit "Are you sure you want to delete this todo?")
        (lit "Cancel") (lit "Delete") performDelete answer ;;
      ret JsUndefined
  end.

Definition clearCompleted (answer : bool) : M JsValue :=
  s <- getState ;;
  let anyCompleted := existsb (fun t => completed t) (todos s) in
  if negb anyCompleted then ret JsUndefined
  else
    let clear :=
      setTodos (fun prev =>
        ret (List.filter (fun t => negb (completed t)) prev)) in
    o <- Platform_OS ;;
    match o with
    | web =>
        ok <- confirm (lit "Clear all completed todos?") answer ;;
        (if ok then clear else ret tt) ;;
        ret JsUndefined
    | _ =>
        alertWithAction (lit "Clear completed")
          (lit "Remove all completed todos?")
          (lit "Cancel") (lit "Clear") clear answer ;;
        ret JsUndefined
    end.

(** The Cancel button of the modal. *)
Definition cancelModal : M JsValue :=
  setModalVisible false ;;
  setCurrentTitle [] ;;
  setEditingId None ;;
  ret JsUndefined.

(** A press on the overlay, or [onRequestClose]. *)
Definition dismissModal : M JsValue :=
  setModalVisible false ;;
  ret JsUndefined.

(** [useState] initial values. *)
Definition initialState : AppState := mkState [] all false [] None.

Definition start (w : World) : Machine := mkMachine initialState w [].

(** *** User events *)

(** What the user can make the component do; [changeText] is the
    [onChangeText] of the input, [pickFilter] a press on a filter chip. *)
Inductive Event : Type :=
| pressAdd
| pressEdit (id0 : jsstring)
| changeText (s : jsstring)
| pressSave
| pressCancel
| pressOverlay
| pickFilter (f : Filter)
| pressCheckbox (id0 : jsstring)
| pressDelete (id0 : jsstring) (answer : bool)
| pressClearCompleted (answer : bool).

Definition handle (e : Event) : M JsValue :=
  match e with
  | pressAdd => openAddModal
  | pressEdit id0 => openEditModal id0
  | changeText s => setCurrentTitle s ;; ret JsUndefined
  | pressSave => saveTodo
  | pressCancel => cancelModal
  | pressOverlay => dismissModal
  | pickFilter f => setFilter f ;; ret JsUndefined
  | pressCheckbox id0 => toggleComplete id0
  | pressDelete id0 answer => deleteTodo id0 answer
  | pressClearCompleted answer => clearCompleted answer
  end.

Fixpoint run (es : list Event) (m : Machine) : Machine :=
  match es with
  | [] => m
  | e :: r => run r (exec (handle e) m)
  end.

End App.

(* ================================================================== *)
(** ** Vocabulary of the properties *)
(* ================================================================== *)

Module Props.
Import Js App.

(** The ids of a collection, in order. *)
Definition ids (l : list Todo) : list jsstring := map id l.

(** A todo with this id is in the collection. *)
Definition present (id0 : jsstring) (l : list Todo) : Prop := In id0 (ids l).

(** A stored title is non-empty and is its own trimmed form. *)
Definition titleOk (t : Todo) : Prop :=
  title t <> [] /\ trim (title t) = title t.

(** Order-preserving subsequence. *)
Inductive Subseq {A : Type} : list A -> list A -> Prop :=
| Subseq_nil : Subseq [] []
| Subseq_skip x l1 l2 : Subseq l1 l2 -> Subseq l1 (x :: l2)
| Subseq_keep x l1 l2 : Subseq l1 l2 -> Subseq (x :: l1) (x :: l2).

(** The component reports a failed operation to the user with a plain
    [Alert.alert(heading, message)] notice; dialogs with buttons and
    [confirm] ask a question instead. *)
Definition isNotice (e : Effect) : bool :=
  match e with AlertNotice _ _ => true | _ => false end.

(** Running [c] from [m] surfaces some failure to the user. *)
Definition reportsFailure {A} (c : M A) (m : Machine) : bool :=
  existsb isNotice (emitted c m).

(** The world after [n] more readings of the clock. *)
Definition advance (n : nat) (w : World) : World :=
  mkWorld (platform w) (clock w) (ticks w + n) (random36 w) (draws w).

(** The list [prev.map(t => p(t) ? g(t, Date.now()) : t)] evaluates to when
    the clock has been read [k] times before. *)
Fixpoint stamped (p : Todo -> bool) (g : Todo -> Z -> Todo)
    (clk : nat -> Z) (k : nat) (l : list Todo) : list Todo :=
  match l with
  | [] => []
  | t :: r =>
      if p t then g t (clk k) :: stamped p g clk (S k) r
      else t :: stamped p g clk k r
  end.

(** Number of elements of [l] that satisfy [p]. *)
Definition count (p : Todo -> bool) (l : list Todo) : nat :=
  List.length (List.filter p l).

(** The id the next create would generate in world [w]. *)
Definition nextId (w : World) : jsstring :=
  decimal (clock w (ticks w)) ++ lit "-" ++ slice (random36 w (draws w)) 2 8.

(** [saveTodo] would take its create branch and store a todo. *)
Definition creates (m : Machine) : bool :=
  truthy (trim (currentTitle (ui m))) &&
  match editingId (ui m) with Some (_ :: _) => false | _ => true end.

(** Along the run of [es] from [m], every create generates an id that no
    todo of the collection has at that moment. *)
Fixpoint freshIds (es : list Event) (m : Machine) : Prop :=
  match es with
  | [] => True
  | e :: r =>
      (e = pressSave -> creates m = true ->
       ~ In (nextId (env m)) (ids (todos (ui m))))
      /\ freshIds r (exec (handle e) m)
  end.

(** Ids are never the empty string, in the collection or in the session. *)
Definition idsNonEmpty (s : AppState) : Prop :=
  Forall (fun t => id t <> []) (todos s) /\
  (forall e, editingId s = Some e -> e <> []).

(** [t.id === id0] *)
Definition hasId (id0 : jsstring) (t : Todo) : bool := str_eqb (id t) id0.

(** [{ ...t, completed: !t.completed, updatedAt: now }] *)
Definition toggled (t : Todo) (now : Z) : Todo :=
  mkTodo (id t) (title t) (negb (completed t)) (createdAt t) (Some now).

(** [{ ...t, title, updatedAt: now }] *)
Definition retitled (title0 : jsstring) (t : Todo) (now : Z) : Todo :=
  mkTodo (id t) title0 (completed t) (createdAt t) (Some now).

(** [prev.filter(t => t.id !== id0)] *)
Definition without (id0 : jsstring) (l : list Todo) : list Todo :=
  List.filter (fun t => negb (str_eqb (id t) id0)) l.

(** [prev.filter(t => !t.completed)] *)
Definition activeOnly (l : list Todo) : list Todo :=
  List.filter (fun t => negb (completed t)) l.

(** The state with another collection. *)
Definition withTodos (l : list Todo) (s : AppState) : AppState :=
  mkState l (filter s) (isModalVisible s) (currentTitle s) (editingId s).

(** The state after a successful save: the collection [l], the editor
    closed, the draft cleared, no todo being edited. *)
Definition saved (l : list Todo) (s : AppState) : AppState :=
  mkState l (filter s) false [] None.

(** The question [deleteTodo] asks on each platform. *)
Definition deletePrompt (o : OS) : Effect :=
  match o with
  | web => Confirm (lit "Delete this todo?")
  | _ => AlertButtons (lit "Delete todo")
           (lit "Are you sure you want to delete this todo?")
           [lit "Cancel"; lit "Delete"]
  end.

(** The question [clearCompleted] asks on each platform. *)
Definition clearPrompt (o : OS) : Effect :=
  match o with
  | web => Confirm (lit "Clear all completed todos?")
  | _ => AlertButtons (lit "Clear completed")
           (lit "Remove all completed todos?")
           [lit "Cancel"; lit "Clear"]
  end.

(** The filter projection of a collection under a mode. *)
Definition visible (c : list Todo) (mode : Filter) : list Todo :=
  filteredTodos (mkState c mode false [] None).

End Props.

(* ================================================================== *)
(** ** Concrete worlds and sessions *)
(* ================================================================== *)

Module Scenario.
Import Js App.

(** A native device whose clock advances by one millisecond between two
    readings and whose random source never repeats. *)
Definition ticking : World :=
  mkWorld ios (fun k => 1700000000000 + Z.of_nat k)%Z 0
    (fun k => lit "0.k3x9q2a7m" ++ decimal (Z.of_nat k)) 0.

(** A browser where every reading of the clock falls in the same
    millisecond and [Math.random] keeps returning the same number. *)
Definition frozen : World :=
  mkWorld web (fun _ => 1700000000000%Z) 0 (fun _ => lit "0.k3x9q2a7m") 0.

(** Open the editor, type a title, submit. *)
Definition add (s : string) : list Event :=
  [pressAdd; changeText (lit s); pressSave].

(** The id of the newest todo. *)
Definition newestId (m : Machine) : jsstring :=
  match todos (ui m) with
  | t :: _ => id t
  | [] => []
  end.

(** One todo, "Task". *)
Definition oneTask : Machine := run (add "Task") (start ticking).

(** The editor open on a new todo with only blanks typed. *)
Definition blankDraft : Machine :=
  run [pressAdd; changeText (lit "   ")] (start ticking).

(** "Task" is selected for editing, the editor is dismissed by a press on
    the overlay, and the todo is deleted: the session still names it. *)
Definition staleEdit : Machine :=
  run [pressEdit (newestId oneTask); changeText (lit "Task 2");
       pressOverlay; pressDelete (newestId oneTask) true] oneTask.

(** "Walk dog" and a completed "Buy milk". *)
Definition milkDone : Machine :=
  let m := run (add "Buy milk") (start ticking) in
  run (add "Walk dog" ++ [pressCheckbox (newestId m)]) m.

(** "Task" is being edited and "Renamed" has been typed. *)
Definition renaming : list Event :=
  add "Task" ++ [pressEdit (newestId oneTask); changeText (lit " Renamed ")].

(** Two todos created in the frozen world. *)
Definition twins : list Event := add "a" ++ add "b".

(** The twins, the editor opened on their common id (it shows "b", the
    first match), and "c" typed. *)
Definition twinsRenaming : list Event :=
  twins ++ [pressEdit (newestId (run twins (start frozen)));
            changeText (lit "c")].

End Scenario.

(* ================================================================== *)
(** ** What the editor shows, and further vocabulary *)
(* ================================================================== *)

Module View.
Import Js App.

(** The heading of the editor: [editingId ? 'Edit Todo' : 'New Todo']. *)
Definition modalTitle (s : AppState) : jsstring :=
  match editingId s with
  | Some (_ :: _) => lit "Edit Todo"
  | _ => lit "New Todo"
  end.

(** The label of the submit button: [editingId ? 'Save' : 'Add']. *)
Definition saveLabel (s : AppState) : jsstring :=
  match editingId s with
  | Some (_ :: _) => lit "Save"
  | _ => lit "Add"
  end.

End View.

Module Frame.
Import Js App Props.

(** The events whose handlers call [setTodos]. *)
Definition storeEvent (e : Event) : bool :=
  match e with
  | pressSave | pressCheckbox _ | pressDelete _ _ | pressClearCompleted _ =>
      true
  | _ => false
  end.

(** What identifies a todo for good: its id and creation time. *)
Definition key (t : Todo) : jsstring * Z := (id t, createdAt t).

(** A todo without its [updatedAt]. *)
Definition core (t : Todo) : jsstring * jsstring * bool * Z :=
  (id t, title t, completed t, createdAt t).

(** The same machine on another platform. *)
Definition onPlatform (o : OS) (m : Machine) : Machine :=
  mkMachine (ui m)
    (mkWorld o (clock (env m)) (ticks (env m)) (random36 (env m))
       (draws (env m)))
    (out m).

(** A clock that never goes back. *)
Definition monotone (clk : nat -> Z) : Prop :=
  forall a b : nat, (a <= b)%nat -> (clk a <= clk b)%Z.

(** No todo was created later than a todo before it in the list. *)
Fixpoint newestFirst (l : list Todo) : Prop :=
  match l with
  | [] => True
  | t :: r => Forall (fun u => (createdAt u <= createdAt t)%Z) r /\ newestFirst r
  end.

(** [updatedAt], when set, is not before [createdAt]. *)
Definition stampedLater (t : Todo) : Prop :=
  match updatedAt t with
  | Some u => (createdAt t <= u)%Z
  | None => True
  end.

(** Open the editor on a new todo, type [s], submit. *)
Definition addFlow (s : jsstring) : list Event :=
  [pressAdd; changeText s; pressSave].

(** The todo a create stores from machine [m] for the trimmed title
    [title0]. *)
Definition created (m : Machine) (title0 : jsstring) : Todo :=
  mkTodo (nextId (env m)) title0 false
    (clock (env m) (S (ticks (env m)))) None.

(** Every created todo was created no later than any reading of the clock
    still to come. *)
Definition createdBefore (m : Machine) : Prop :=
  Forall (fun t => forall k, (ticks (env m) <= k)%nat ->
                             (createdAt t <= clock (env m) k)%Z)
         (todos (ui m)).

(** An id as [saveTodo] generates them: a decimal number, a dash, and at
    most six code units cut out of the random rendering. *)
Definition generatedId (i : jsstring) : Prop :=
  exists (z : Z) (suffix : jsstring),
    i = decimal z ++ lit "-" ++ suffix /\ (List.length suffix <= 6)%nat.

(** The only notice the component knows. *)
Definition knownNotice (e : Effect) : Prop :=
  isNotice e = true -> e = emptyTitleNotice.

End Frame.

(* ================================================================== *)
(** ** Strings *)
(* ================================================================== *)

Import Js App Props View Frame.

Lemma str_eqb_eq (a b : jsstring) : str_eqb a b = true <-> a = b.
Proof.
  revert b; induction a as [|x a IH]; intros [|y b]; simpl; split;
    try congruence; try reflexivity.
  - intros H. apply andb_true_iff in H as [Hx Hr].
    apply N.eqb_eq in Hx. apply IH in Hr. congruence.
  - intros H. injection H as -> ->.
    rewrite N.eqb_refl. simpl. now apply IH.
Qed.

Lemma str_eqb_refl (a : jsstring) : str_eqb a a = true.
Proof. now apply str_eqb_eq. Qed.

Lemma str_eqb_neq (a b : jsstring) : a <> b -> str_eqb a b = false.
Proof.
  intros H. destruct (str_eqb a b) eqn:E; [|reflexivity].
  apply str_eqb_eq in E. contradiction.
Qed.

Lemma truthy_true (s : jsstring) : truthy s = true <-> s <> [].
Proof. destruct s; simpl; split; congruence. Qed.

Lemma trimStart_head (s : jsstring) c r :
  trimStart s = c :: r -> is_white_space c = false.
Proof.
  induction s as [|x s IH]; simpl; [discriminate|].
  destruct (is_white_space x) eqn:E; [exact IH|].
  intros H. injection H as -> _. exact E.
Qed.

Lemma trimStart_keep c r :
  is_white_space c = false -> trimStart (c :: r) = c :: r.
Proof. intros H. simpl. now rewrite H. Qed.

Lemma trimStart_idem (s : jsstring) : trimStart (trimStart s) = trimStart s.
Proof.
  destruct (trimStart s) as [|c r] eqn:E; [reflexivity|].
  apply trimStart_keep. eapply trimStart_head; eassumption.
Qed.

Lemma trimStart_suffix (s : jsstring) : exists p, s = p ++ trimStart s.
Proof.
  induction s as [|x s [p IH]]; [now exists []|].
  simpl. destruct (is_white_space x).
  - exists (x :: p). simpl. now f_equal.
  - now exists [].
Qed.

(** Trimming the end of a string that starts with a non-space keeps its
    start. *)
Lemma trimEnd_of_trimStart (s : jsstring) :
  trimStart (trimEnd (trimStart s)) = trimEnd (trimStart s).
Proof.
  unfold trimEnd.
  set (a := trimStart s).
  destruct (trimStart_suffix (rev a)) as [p Hp].
  set (b := trimStart (rev a)) in *.
  assert (Ha : a = rev b ++ rev p).
  { rewrite <- (rev_involutive a), Hp, rev_app_distr. reflexivity. }
  destruct (rev b) as [|c r] eqn:Eb; [reflexivity|].
  apply trimStart_keep.
  apply (trimStart_head s c (r ++ rev p)).
  fold a. rewrite Ha. reflexivity.
Qed.

Lemma trim_idem (s : jsstring) : trim (trim s) = trim s.
Proof.
  unfold trim. rewrite trimEnd_of_trimStart.
  unfold trimEnd. rewrite rev_involutive, trimStart_idem. reflexivity.
Qed.

Lemma decimal_sep_nonempty (a b : jsstring) : a ++ lit "-" ++ b <> [].
Proof. destruct a; simpl; discriminate. Qed.

(* ================================================================== *)
(** ** The monad and the stamping map *)
(* ================================================================== *)

Lemma emitted_app {A} (c : M A) (m : Machine) (fx : list Effect) :
  out (exec c m) = out m ++ fx -> emitted c m = fx.
Proof.
  intros H. unfold emitted. rewrite H.
  rewrite skipn_app, skipn_all, Nat.sub_diag. reflexivity.
Qed.

Lemma machine_eta (m : Machine) : mkMachine (ui m) (env m) (out m) = m.
Proof. now destruct m. Qed.

Lemma advance_0 (w : World) : advance 0 w = w.
Proof. destruct w. unfold advance. simpl. now rewrite Nat.add_0_r. Qed.

Lemma count_cons (p : Todo -> bool) t l :
  count p (t :: l) = if p t then S (count p l) else count p l.
Proof. unfold count. simpl. now destruct (p t). Qed.

Lemma mapM_stamp (p : Todo -> bool) (g : Todo -> Z -> Todo) (l : list Todo) :
  forall m,
    mapM (fun t => if p t then now <- Date_now ;; ret (g t now) else ret t) l m
    = (stamped p g (clock (env m)) (ticks (env m)) l,
       mkMachine (ui m) (advance (count p l) (env m)) (out m)).
Proof.
  induction l as [|t r IH]; intros m.
  - simpl. unfold ret. now rewrite advance_0, machine_eta.
  - cbn [mapM stamped]. rewrite count_cons. unfold bind at 1.
    destruct (p t).
    + unfold bind at 1. unfold Date_now at 1. unfold ret at 1.
      unfold bind. rewrite IH. unfold ret. cbn.
      do 2 f_equal. unfold advance. cbn. f_equal. lia.
    + unfold ret at 1. unfold bind. rewrite IH. reflexivity.
Qed.

Section Stamped.
Variables (p : Todo -> bool) (g : Todo -> Z -> Todo) (clk : nat -> Z).

Lemma stamped_length l : forall k,
  List.length (stamped p g clk k l) = List.length l.
Proof.
  induction l as [|t r IH]; intros k; simpl; [reflexivity|].
  destruct (p t); simpl; now rewrite IH.
Qed.

Lemma stamped_nth l : forall k i t,
  nth_error l i = Some t ->
  nth_error (stamped p g clk k l) i
  = Some (if p t then g t (clk (k + count p (firstn i l))) else t).
Proof.
  induction l as [|x r IH]; intros k [|i] t H; simpl in H; try discriminate.
  - injection H as ->. simpl. unfold count. simpl.
    destruct (p t); simpl; [now rewrite Nat.add_0_r|reflexivity].
  - cbn [stamped firstn]. rewrite count_cons.
    destruct (p x); simpl; rewrite (IH _ _ _ H);
      destruct (p t); try reflexivity.
    do 3 f_equal. lia.
Qed.

Lemma stamped_unmatched l : forall k,
  (forall t, In t l -> p t = false) -> stamped p g clk k l = l.
Proof.
  induction l as [|x r IH]; intros k H; simpl; [reflexivity|].
  rewrite (H x (or_introl eq_refl)). f_equal.
  apply IH. intros t Ht. apply H. now right.
Qed.

Lemma stamped_ids l : forall k,
  (forall t z, id (g t z) = id t) -> ids (stamped p g clk k l) = ids l.
Proof.
  intros k Hg. revert k.
  induction l as [|x r IH]; intros k; simpl; [reflexivity|].
  destruct (p x); simpl; now rewrite IH, ?Hg.
Qed.

Lemma stamped_Forall (P : Todo -> Prop) l : forall k,
  (forall t z, P t -> P (g t z)) ->
  Forall P l -> Forall P (stamped p g clk k l).
Proof.
  intros k Hg Hl. revert k.
  induction Hl as [|x r Hx Hr IH]; intros k; simpl; [constructor|].
  destruct (p x); constructor; auto.
Qed.

Lemma count_firstn_lt l : forall i t,
  nth_error l i = Some t -> p t = true ->
  (count p (firstn i l) < count p l)%nat.
Proof.
  induction l as [|x r IH]; intros [|i] t H Hp; simpl in H; try discriminate.
  - injection H as ->. rewrite count_cons, Hp. cbn. lia.
  - cbn [firstn]. rewrite !count_cons. specialize (IH _ _ H Hp).
    destruct (p x); lia.
Qed.
End Stamped.

(* ================================================================== *)
(** ** What each handler computes *)
(* ================================================================== *)

Lemma state_eta (s : AppState) : withTodos (todos s) s = s.
Proof. now destruct s. Qed.

Lemma toggleComplete_run (id0 : jsstring) (m : Machine) :
  toggleComplete id0 m =
  (JsUndefined,
   mkMachine
     (withTodos (stamped (hasId id0) toggled (clock (env m)) (ticks (env m))
                   (todos (ui m))) (ui m))
     (advance (count (hasId id0) (todos (ui m))) (env m))
     (out m)).
Proof.
  pose proof (mapM_stamp (hasId id0) toggled (todos (ui m)) m) as H.
  unfold hasId at 1, toggled at 1 in H.
  unfold toggleComplete, setTodos, bind, getState, modify, ret in *.
  rewrite H. reflexivity.
Qed.

Lemma saveTodo_empty (m : Machine) :
  trim (currentTitle (ui m)) = [] ->
  saveTodo m = (JsUndefined, mkMachine (ui m) (env m) (out m ++ [emptyTitleNotice])).
Proof.
  intros H. unfold saveTodo, bind, getState. rewrite H. reflexivity.
Qed.

Lemma saveTodo_edit (m : Machine) (eid : jsstring) :
  editingId (ui m) = Some eid -> eid <> [] ->
  trim (currentTitle (ui m)) <> [] ->
  saveTodo m =
  (JsUndefined,
   mkMachine
     (saved (stamped (hasId eid) (retitled (trim (currentTitle (ui m))))
               (clock (env m)) (ticks (env m)) (todos (ui m))) (ui m))
     (advance (count (hasId eid) (todos (ui m))) (env m))
     (out m ++ [KeyboardDismiss])).
Proof.
  intros He Hne Ht.
  pose proof (mapM_stamp (hasId eid) (retitled (trim (currentTitle (ui m))))
                (todos (ui m)) m) as H.
  unfold hasId at 1, retitled at 1 in H.
  apply truthy_true in Ht.
  unfold saveTodo, setTodos, bind, getState, modify, ret in *.
  cbv beta zeta. rewrite He, Ht. cbn [negb].
  destruct eid as [|c eid]; [congruence|].
  rewrite H. reflexivity.
Qed.

Lemma saveTodo_create (m : Machine) :
  creates m = true ->
  saveTodo m =
  (JsUndefined,
   mkMachine
     (saved (mkTodo (nextId (env m)) (trim (currentTitle (ui m))) false
               (clock (env m) (S (ticks (env m)))) None :: todos (ui m)) (ui m))
     (mkWorld (platform (env m)) (clock (env m)) (S (S (ticks (env m))))
        (random36 (env m)) (S (draws (env m))))
     (out m ++ [KeyboardDismiss])).
Proof.
  unfold creates. intros H. apply andb_true_iff in H as [Ht He].
  unfold saveTodo. unfold bind at 1. unfold getState at 1.
  rewrite Ht. cbn [negb].
  destruct (editingId (ui m)) as [[|c e]|]; try discriminate; reflexivity.
Qed.

Lemma deleteTodo_run (id0 : jsstring) (answer : bool) (m : Machine) :
  deleteTodo id0 answer m =
  (JsUndefined,
   mkMachine
     (if answer then withTodos (without id0 (todos (ui m))) (ui m) else ui m)
     (env m)
     (out m ++ [deletePrompt (platform (env m))])).
Proof.
  unfold deleteTodo, bind, Platform_OS.
  destruct (platform (env m)), answer; reflexivity.
Qed.

Lemma clearCompleted_run (answer : bool) (m : Machine) :
  clearCompleted answer m =
  if existsb (fun t => completed t) (todos (ui m)) then
    (JsUndefined,
     mkMachine
       (if answer then withTodos (activeOnly (todos (ui m))) (ui m) else ui m)
       (env m)
       (out m ++ [clearPrompt (platform (env m))]))
  else (JsUndefined, m).
Proof.
  unfold clearCompleted, bind, getState.
  destruct (existsb _ (todos (ui m))); cbn [negb]; [|reflexivity].
  unfold Platform_OS. destruct (platform (env m)), answer; reflexivity.
Qed.

Lemma find_absent (id0 : jsstring) (l : list Todo) :
  ~ present id0 l -> List.find (fun x => str_eqb (id x) id0) l = None.
Proof.
  unfold present, ids. induction l as [|t r IH]; simpl; intros H; [reflexivity|].
  rewrite str_eqb_neq by tauto. apply IH. tauto.
Qed.

Lemma find_hasId (id0 : jsstring) (l : list Todo) t :
  List.find (fun x => str_eqb (id x) id0) l = Some t -> In t l /\ id t = id0.
Proof.
  intros H. apply find_some in H as [Hin He].
  apply str_eqb_eq in He. tauto.
Qed.

Lemma openEditModal_absent (id0 : jsstring) (m : Machine) :
  ~ present id0 (todos (ui m)) -> openEditModal id0 m = (JsUndefined, m).
Proof.
  intros H. unfold openEditModal, bind, getState.
  now rewrite (find_absent _ _ H).
Qed.

Lemma hasId_absent (id0 : jsstring) (l : list Todo) :
  ~ present id0 l -> forall t, In t l -> hasId id0 t = false.
Proof.
  intros H t Ht. unfold hasId. apply str_eqb_neq. intros E. apply H.
  unfold present, ids. rewrite <- E. now apply in_map.
Qed.

Lemma count_absent (id0 : jsstring) (l : list Todo) :
  ~ present id0 l -> count (hasId id0) l = 0%nat.
Proof.
  intros H. pose proof (hasId_absent _ _ H) as Hl. clear H.
  induction l as [|t r IH]; [reflexivity|].
  rewrite count_cons, (Hl t (or_introl eq_refl)).
  apply IH. intros x Hx. apply Hl. now right.
Qed.

Lemma without_absent (id0 : jsstring) (l : list Todo) :
  ~ present id0 l -> without id0 l = l.
Proof.
  intros H. unfold without. apply forallb_filter_id.
  apply forallb_forall. intros t Ht.
  pose proof (hasId_absent _ _ H t Ht) as E. unfold hasId in E. now rewrite E.
Qed.

Lemma without_not_present (id0 : jsstring) (l : list Todo) :
  ~ present id0 (without id0 l).
Proof.
  unfold present, ids, without. intros H.
  apply in_map_iff in H as [t [E Ht]]. apply filter_In in Ht as [_ Hb].
  subst id0. now rewrite str_eqb_refl in Hb.
Qed.

(* ================================================================== *)
(** ** Filtering *)
(* ================================================================== *)

Lemma Subseq_filter {A} (p : A -> bool) (l : list A) :
  Subseq (List.filter p l) l.
Proof.
  induction l as [|x l IH]; simpl; [constructor|].
  destruct (p x); [now apply Subseq_keep|now apply Subseq_skip].
Qed.

Lemma Subseq_filter_max {A} (p : A -> bool) (l' l : list A) :
  Subseq l' l -> Forall (fun x => p x = true) l' ->
  Subseq l' (List.filter p l).
Proof.
  induction 1 as [|x l1 l2 _ IH|x l1 l2 _ IH]; intros Hall; simpl.
  - constructor.
  - destruct (p x); [apply Subseq_skip|]; now apply IH.
  - inversion Hall as [|? ? Hx Hr]; subst. rewrite Hx.
    apply Subseq_keep. now apply IH.
Qed.

Lemma Subseq_length {A} (l' l : list A) :
  Subseq l' l -> (List.length l' <= List.length l)%nat.
Proof. induction 1; simpl; lia. Qed.

Lemma filter_partition_length {A} (p : A -> bool) (l : list A) :
  List.length l
  = (List.length (List.filter (fun x => negb (p x)) l)
     + List.length (List.filter p l))%nat.
Proof.
  induction l as [|x l IH]; simpl; [reflexivity|].
  destruct (p x); simpl; lia.
Qed.

Lemma existsb_filter_nil {A} (p : A -> bool) (l : list A) :
  existsb p (List.filter (fun x => negb (p x)) l) = false.
Proof.
  induction l as [|x l IH]; simpl; [reflexivity|].
  destruct (p x) eqn:E; simpl; [exact IH|]. now rewrite E.
Qed.

(* ================================================================== *)
(** ** One event at a time *)
(* ================================================================== *)

Lemma run_app (es1 es2 : list Event) (m : Machine) :
  run (es1 ++ es2) m = run es2 (run es1 m).
Proof. revert m; induction es1 as [|e r IH]; intros m; simpl; auto. Qed.

Lemma openEditModal_todos (id0 : jsstring) (m : Machine) :
  todos (ui (exec (openEditModal id0) m)) = todos (ui m).
Proof.
  unfold exec, openEditModal, bind, getState.
  now destruct (List.find _ (todos (ui m))).
Qed.

(** How an event can change the collection: not at all, by a stamping map
    that toggles or retitles, by a filter, or by a create. *)
Lemma handle_todos (e : Event) (m : Machine) :
  let l := todos (ui m) in
  let l' := todos (ui (exec (handle e) m)) in
  l' = l
  \/ (exists p k, l' = stamped p toggled (clock (env m)) k l)
  \/ (trim (currentTitle (ui m)) <> [] /\
      exists p k, l' = stamped p (retitled (trim (currentTitle (ui m))))
                         (clock (env m)) k l)
  \/ (exists f, l' = List.filter f l)
  \/ (e = pressSave /\ creates m = true /\
      exists c, l' = mkTodo (nextId (env m)) (trim (currentTitle (ui m)))
                       false c None :: l).
Proof.
  intros l l'. subst l l'. destruct e as [|id0|s| | | |f|id0|id0 a|a]; cbn [handle].
  - now left.
  - left. apply openEditModal_todos.
  - now left.
  - destruct (trim (currentTitle (ui m))) as [|c r] eqn:Et.
    { left. unfold exec. now rewrite (saveTodo_empty m Et). }
    assert (Hne : trim (currentTitle (ui m)) <> []) by (rewrite Et; discriminate).
    destruct (editingId (ui m)) as [[|x eid]|] eqn:Ee.
    + do 4 right. assert (Hc : creates m = true)
        by (unfold creates; now rewrite Et, Ee).
      unfold exec. rewrite (saveTodo_create m Hc), Et. cbn.
      repeat split; eauto.
    + right; right; left. rewrite <- Et. split; [exact Hne|].
      unfold exec. rewrite (saveTodo_edit m (x :: eid) Ee); [|discriminate|exact Hne].
      cbn. eauto.
    + do 4 right. assert (Hc : creates m = true)
        by (unfold creates; now rewrite Et, Ee).
      unfold exec. rewrite (saveTodo_create m Hc), Et. cbn.
      repeat split; eauto.
  - now left.
  - now left.
  - now left.
  - right; left. unfold exec. rewrite toggleComplete_run. cbn. eauto.
  - unfold exec. rewrite deleteTodo_run. destruct a; cbn; [|now left].
    do 3 right; left. unfold without. eauto.
  - unfold exec. rewrite clearCompleted_run.
    destruct (existsb _ (todos (ui m))); [|now left].
    destruct a; cbn; [|now left].
    do 3 right; left. unfold activeOnly. eauto.
Qed.

(** How an event can change the todo being edited: not at all, to none, or
    to the id of a todo of the collection. *)
Lemma handle_editingId (e : Event) (m : Machine) :
  let s' := ui (exec (handle e) m) in
  editingId s' = editingId (ui m)
  \/ editingId s' = None
  \/ (exists t, In t (todos (ui m)) /\ editingId s' = Some (id t)).
Proof.
  cbv zeta. destruct e as [|id0|s| | | |f|id0|id0 a|a]; cbn [handle].
  - right; now left.
  - unfold exec, openEditModal, bind, getState.
    destruct (List.find _ (todos (ui m))) as [t|] eqn:Ef; [|now left].
    apply find_hasId in Ef as [Hin Hid]. right; right. exists t.
    split; [exact Hin|]. cbn. now rewrite Hid.
  - now left.
  - destruct (trim (currentTitle (ui m))) as [|c r] eqn:Et.
    { left. unfold exec. now rewrite (saveTodo_empty m Et). }
    right; left.
    assert (Hne : trim (currentTitle (ui m)) <> []) by (rewrite Et; discriminate).
    destruct (editingId (ui m)) as [[|x eid]|] eqn:Ee.
    + assert (Hc : creates m = true) by (unfold creates; now rewrite Et, Ee).
      unfold exec. now rewrite (saveTodo_create m Hc).
    + unfold exec.
      now rewrite (saveTodo_edit m (x :: eid) Ee); [|discriminate|exact Hne].
    + assert (Hc : creates m = true) by (unfold creates; now rewrite Et, Ee).
      unfold exec. now rewrite (saveTodo_create m Hc).
  - right; now left.
  - now left.
  - now left.
  - left. unfold exec. now rewrite toggleComplete_run.
  - left. unfold exec. rewrite deleteTodo_run. now destruct a.
  - left. unfold exec. rewrite clearCompleted_run.
    destruct (existsb _ (todos (ui m))); [|reflexivity]. now destruct a.
Qed.

Lemma Forall_filter {A} (P : A -> Prop) (f : A -> bool) (l : list A) :
  Forall P l -> Forall P (List.filter f l).
Proof.
  rewrite !Forall_forall. intros H x Hx. apply filter_In in Hx. now apply H.
Qed.

Lemma NoDup_ids_filter (f : Todo -> bool) (l : list Todo) :
  NoDup (ids l) -> NoDup (ids (List.filter f l)).
Proof.
  unfold ids. induction l as [|t r IH]; simpl; intros H; [constructor|].
  inversion H as [|? ? Hn Hr]; subst.
  destruct (f t); simpl; [|now apply IH].
  constructor; [|now apply IH].
  intros Hin. apply Hn. apply in_map_iff in Hin as [x [Hx Hf]].
  apply filter_In in Hf as [Hf _]. apply in_map_iff. eauto.
Qed.

Lemma handle_idsNonEmpty (e : Event) (m : Machine) :
  idsNonEmpty (ui m) -> idsNonEmpty (ui (exec (handle e) m)).
Proof.
  intros [Hl He]. split.
  - destruct (handle_todos e m) as [H|[[p [k H]]|[[_ [p [k H]]]|[[f H]|[_ [_ [c H]]]]]]];
      rewrite H.
    + exact Hl.
    + apply stamped_Forall; [|exact Hl]. intros t z Ht. exact Ht.
    + apply stamped_Forall; [|exact Hl]. intros t z Ht. exact Ht.
    + now apply Forall_filter.
    + constructor; [|exact Hl]. cbn. unfold nextId. apply decimal_sep_nonempty.
  - intros x Hx.
    destruct (handle_editingId e m) as [H|[H|[t [Hin H]]]]; rewrite H in Hx.
    + now apply He.
    + discriminate.
    + injection Hx as <-. rewrite Forall_forall in Hl. now apply Hl.
Qed.

Lemma run_idsNonEmpty (es : list Event) :
  forall m, idsNonEmpty (ui m) -> idsNonEmpty (ui (run es m)).
Proof.
  induction es as [|e r IH]; intros m H; simpl; [exact H|].
  apply IH. now apply handle_idsNonEmpty.
Qed.

Lemma start_idsNonEmpty (w : World) : idsNonEmpty (ui (start w)).
Proof. split; [constructor|]. cbn. discriminate. Qed.

Lemma handle_titleOk (e : Event) (m : Machine) :
  Forall titleOk (todos (ui m)) ->
  Forall titleOk (todos (ui (exec (handle e) m))).
Proof.
  intros Hl.
  destruct (handle_todos e m) as [H|[[p [k H]]|[[Hne [p [k H]]]|[[f H]|[_ [Hc [c H]]]]]]];
    rewrite H.
  - exact Hl.
  - apply stamped_Forall; [|exact Hl]. intros t z Ht. exact Ht.
  - apply stamped_Forall; [|exact Hl]. intros t z _.
    split; cbn; [exact Hne|apply trim_idem].
  - now apply Forall_filter.
  - constructor; [|exact Hl]. unfold creates in Hc.
    apply andb_true_iff in Hc as [Hc _]. apply truthy_true in Hc.
    split; cbn; [exact Hc|apply trim_idem].
Qed.

Lemma handle_NoDup (e : Event) (m : Machine) :
  NoDup (ids (todos (ui m))) ->
  (e = pressSave -> creates m = true ->
   ~ In (nextId (env m)) (ids (todos (ui m)))) ->
  NoDup (ids (todos (ui (exec (handle e) m)))).
Proof.
  intros Hl Hfresh.
  destruct (handle_todos e m) as [H|[[p [k H]]|[[_ [p [k H]]]|[[f H]|[He [Hc [c H]]]]]]];
    rewrite H.
  - exact Hl.
  - now rewrite stamped_ids.
  - now rewrite stamped_ids.
  - now apply NoDup_ids_filter.
  - cbn. constructor; [now apply Hfresh|exact Hl].
Qed.

(* ================================================================== *)
(** ** The store, the filter projection and the edit session *)
(* ================================================================== *)

(** C1. Submitting a new todo ([saveTodo] with no todo being edited) trims
    the draft.  When the trimmed draft is empty the collection, and the
    whole React state, are unchanged and the 'Empty title' notice is the
    one effect.  Otherwise a todo with the generated id, the trimmed
    title, [completed = false], [createdAt] the clock reading that follows
    the one of the id, and no [updatedAt] becomes the first element of the
    collection, the rest of the collection follows it unchanged, and the
    collection is one longer. *)
Theorem create_prepends_or_rejects :
  forall (l : list Todo) (f : Filter) (vis : bool) (draft : jsstring)
         (w : World) (fx : list Effect),
    let m := mkMachine (mkState l f vis draft None) w fx in
    let m' := exec saveTodo m in
    match trim draft with
    | [] =>
        todos (ui m') = l /\ ui m' = ui m /\
        emitted saveTodo m = [emptyTitleNotice]
    | _ :: _ =>
        exists t,
          todos (ui m') = t :: l /\
          nth_error (todos (ui m')) 0 = Some t /\
          id t = nextId w /\
          title t = trim draft /\
          completed t = false /\
          createdAt t = clock w (S (ticks w)) /\
          updatedAt t = None /\
          List.length (todos (ui m')) = S (List.length l) /\
          reportsFailure saveTodo m = false
    end.
Proof.
  intros l f vis draft w fx m m'.
  destruct (trim draft) as [|c r] eqn:E.
  - assert (H : saveTodo m = (JsUndefined,
        mkMachine (ui m) (env m) (out m ++ [emptyTitleNotice])))
      by (apply saveTodo_empty; exact E).
    subst m'. unfold exec. rewrite H. cbn [snd ui todos].
    repeat split. apply emitted_app. unfold exec. now rewrite H.
  - assert (Hc : creates m = true) by (unfold creates, m; cbn [ui currentTitle editingId]; now rewrite E).
    pose proof (saveTodo_create m Hc) as H.
    assert (Hfx : emitted saveTodo m = [KeyboardDismiss])
      by (apply emitted_app; unfold exec; now rewrite H).
    subst m'. unfold exec, reportsFailure. rewrite Hfx, H.
    subst m. cbn [snd ui env saved todos currentTitle]. rewrite E.
    eexists. repeat split.
Qed.

(** C6. The filter projection.  Under 'all' it is the collection itself.
    Under 'active' (resp. 'completed') it is the order-preserving
    subsequence of the items with [completed = false] (resp. [true]): a
    subsequence of the collection, holding exactly those items, and
    containing every subsequence of the collection made of such items.
    Every item of the collection is in one of the two and none is in both.
    Computing the projection during a render returns it and leaves the
    machine, hence the collection, as it was. *)
Theorem visible_partitions :
  forall c : list Todo,
    (forall m, eval renderFilteredTodos m
               = visible (todos (ui m)) (filter (ui m))
               /\ exec renderFilteredTodos m = m) /\
    visible c all = c /\
    (Subseq (visible c active) c /\
     (forall t, In t (visible c active) <-> In t c /\ completed t = false) /\
     (forall l, Subseq l c -> Forall (fun t => completed t = false) l ->
                Subseq l (visible c active))) /\
    (Subseq (visible c completed_only) c /\
     (forall t, In t (visible c completed_only)
                <-> In t c /\ completed t = true) /\
     (forall l, Subseq l c -> Forall (fun t => completed t = true) l ->
                Subseq l (visible c completed_only))) /\
    (forall t, In t (visible c all)
               <-> In t (visible c active) \/ In t (visible c completed_only)) /\
    (forall t, ~ (In t (visible c active) /\ In t (visible c completed_only))).
Proof.
  intros c. unfold visible, filteredTodos. cbn [filter todos].
  split; [intros m; split; reflexivity|].
  split; [reflexivity|].
  assert (Ha : forall t, In t (List.filter (fun t => negb (completed t)) c)
                         <-> In t c /\ completed t = false).
  { intros t. rewrite filter_In, negb_true_iff. tauto. }
  assert (Hc : forall t, In t (List.filter (fun t => completed t) c)
                         <-> In t c /\ completed t = true).
  { intros t. apply filter_In. }
  split; [split; [apply Subseq_filter|split; [exact Ha|]]|].
  { intros l Hs Hl. apply Subseq_filter_max; [exact Hs|].
    eapply Forall_impl; [|exact Hl]. intros t Ht. cbn. now rewrite Ht. }
  split; [split; [apply Subseq_filter|split; [exact Hc|]]|].
  { intros l Hs Hl. now apply Subseq_filter_max. }
  split.
  - intros t. rewrite Ha, Hc. destruct (completed t); intuition congruence.
  - intros t [H1 H2]. apply Ha in H1. apply Hc in H2.
    destruct H1 as [_ H1], H2 as [_ H2]. congruence.
Qed.

(** C9. Submitting a draft that trims to empty, whether a new todo is being
    created or an existing one edited: the 'Empty title' notice is shown
    and nothing else happens.  The React state is unchanged, so the editor
    stays as it was (same [isModalVisible], same [editingId]), the draft
    text is kept, and the collection is not touched; the clock and the
    random source are not read. *)
Theorem empty_submit_keeps_session :
  forall m : Machine,
    trim (currentTitle (ui m)) = [] ->
    ui (exec saveTodo m) = ui m /\
    isModalVisible (ui (exec saveTodo m)) = isModalVisible (ui m) /\
    editingId (ui (exec saveTodo m)) = editingId (ui m) /\
    currentTitle (ui (exec saveTodo m)) = currentTitle (ui m) /\
    todos (ui (exec saveTodo m)) = todos (ui m) /\
    env (exec saveTodo m) = env m /\
    emitted saveTodo m = [emptyTitleNotice] /\
    reportsFailure saveTodo m = true.
Proof.
  intros m H. pose proof (saveTodo_empty m H) as R.
  assert (Hfx : emitted saveTodo m = [emptyTitleNotice])
    by (apply emitted_app; unfold exec; now rewrite R).
  unfold reportsFailure. rewrite Hfx. unfold exec. rewrite R.
  repeat split.
Qed.

(** The editor open on a draft of three blanks. *)
Lemma empty_submit_keeps_session_witness :
  trim (currentTitle (ui Scenario.blankDraft)) = [] /\
  ui (exec saveTodo Scenario.blankDraft) = ui Scenario.blankDraft /\
  emitted saveTodo Scenario.blankDraft = [emptyTitleNotice].
Proof.
  assert (H : trim (currentTitle (ui Scenario.blankDraft)) = [])
    by (vm_compute; reflexivity).
  split; [exact H|].
  pose proof (empty_submit_keeps_session Scenario.blankDraft H) as R.
  split; [apply R|]. apply R.
Defined.

(** C10. [openEditModal] on an id that no todo of the collection has does
    nothing at all: the machine is left as it was (editor, [editingId],
    draft, collection, clock), and nothing is shown or scheduled. *)
Theorem openEditModal_absent_noop :
  forall (m : Machine) (id0 : jsstring),
    ~ present id0 (todos (ui m)) ->
    exec (openEditModal id0) m = m /\
    emitted (openEditModal id0) m = [] /\
    eval (openEditModal id0) m = JsUndefined.
Proof.
  intros m id0 H. pose proof (openEditModal_absent id0 m H) as R.
  assert (Hfx : emitted (openEditModal id0) m = []).
  { apply emitted_app. unfold exec. rewrite R. cbn. now rewrite app_nil_r. }
  unfold exec, eval. rewrite R. repeat split. exact Hfx.
Qed.

(** An id that the one todo of the collection does not have. *)
Lemma openEditModal_absent_noop_witness :
  ~ present (lit "1700000000000-zzzzzz") (todos (ui Scenario.oneTask)) /\
  exec (openEditModal (lit "1700000000000-zzzzzz")) Scenario.oneTask
  = Scenario.oneTask.
Proof.
  assert (H : ~ present (lit "1700000000000-zzzzzz")
                (todos (ui Scenario.oneTask))).
  { vm_compute. intros [E|[]]. discriminate E. }
  split; [exact H|].
  apply (openEditModal_absent_noop Scenario.oneTask _ H).
Defined.

(** C2, as the specification states it, fails on its own scenario: "Task"
    is created with id X and deleted; deleting X again finds no such todo,
    yet no failure is surfaced.  The second call returns the same value and
    shows the same confirmation dialog as the first, and nothing else. *)
Lemma delete_again_reports_nothing :
  let X := Scenario.newestId Scenario.oneTask in
  let m1 := exec (deleteTodo X true) Scenario.oneTask in
  present X (todos (ui Scenario.oneTask)) /\
  todos (ui m1) = [] /\
  ~ present X (todos (ui m1)) /\
  reportsFailure (deleteTodo X true) m1 <> true /\
  eval (deleteTodo X true) m1 = eval (deleteTodo X true) Scenario.oneTask /\
  emitted (deleteTodo X true) m1 = emitted (deleteTodo X true) Scenario.oneTask.
Proof.
  cbv zeta. split; [vm_compute; now left|].
  split; [vm_compute; reflexivity|].
  split; [vm_compute; tauto|].
  split; [vm_compute; discriminate|].
  split; vm_compute; reflexivity.
Qed.

(** C2, amended.  [deleteTodo] on an id that no todo of the collection has
    is silently ignored: whatever the user answers, the React state and the
    environment are unchanged, the call returns [undefined], and the one
    effect is the confirmation dialog, so no failure is reported.  After a
    confirmed delete of an id, no todo has that id, so deleting it again is
    such a silent no-op. *)
Theorem delete_absent_is_silent :
  forall (m : Machine) (id0 : jsstring) (answer : bool),
    ~ present id0 (todos (ui m)) ->
    ui (exec (deleteTodo id0 answer) m) = ui m /\
    env (exec (deleteTodo id0 answer) m) = env m /\
    eval (deleteTodo id0 answer) m = JsUndefined /\
    emitted (deleteTodo id0 answer) m = [deletePrompt (platform (env m))] /\
    reportsFailure (deleteTodo id0 answer) m = false /\
    (forall m0, ~ present id0 (todos (ui (exec (deleteTodo id0 true) m0)))).
Proof.
  intros m id0 answer H.
  assert (Hfx : emitted (deleteTodo id0 answer) m
                = [deletePrompt (platform (env m))]).
  { apply emitted_app. unfold exec. now rewrite deleteTodo_run. }
  unfold reportsFailure. rewrite Hfx.
  unfold exec, eval. rewrite deleteTodo_run. cbn [fst snd ui env].
  split.
  { destruct answer; [|reflexivity].
    rewrite (without_absent _ _ H). apply state_eta. }
  do 3 (split; [reflexivity|]).
  split; [now destruct (platform (env m))|].
  intros m0. rewrite deleteTodo_run. cbn. apply without_not_present.
Qed.

(** Deleting "Task" a second time. *)
Lemma delete_absent_is_silent_witness :
  let X := Scenario.newestId Scenario.oneTask in
  let m1 := exec (deleteTodo X true) Scenario.oneTask in
  ~ present X (todos (ui m1)) /\
  ui (exec (deleteTodo X true) m1) = ui m1 /\
  reportsFailure (deleteTodo X true) m1 = false.
Proof.
  cbv zeta.
  assert (H : ~ present (Scenario.newestId Scenario.oneTask)
                (todos (ui (exec (deleteTodo
                   (Scenario.newestId Scenario.oneTask) true) Scenario.oneTask))))
    by (vm_compute; tauto).
  split; [exact H|].
  pose proof (delete_absent_is_silent _ _ true H) as R.
  split; apply R.
Defined.

(** C3, as the specification states it, fails: when the todo an edit
    session names has been deleted, submitting a new title surfaces no
    failure of any kind; the only effect is the keyboard being dismissed. *)
Lemma stale_submit_reports_nothing :
  let X := Scenario.newestId Scenario.oneTask in
  editingId (ui Scenario.staleEdit) = Some X /\
  ~ present X (todos (ui Scenario.staleEdit)) /\
  trim (currentTitle (ui Scenario.staleEdit)) = lit "Task 2" /\
  reportsFailure saveTodo Scenario.staleEdit <> true /\
  emitted saveTodo Scenario.staleEdit = [KeyboardDismiss].
Proof.
  cbv zeta. split; [vm_compute; reflexivity|].
  split; [vm_compute; tauto|].
  split; [vm_compute; reflexivity|].
  split; [vm_compute; discriminate|vm_compute; reflexivity].
Qed.

(** C3, amended.  In every state the component can reach, when the edit
    session names an id that no todo of the collection has and the draft
    trims to a non-empty title, [saveTodo] leaves the collection unchanged
    (no todo is created or brought back), closes the editor, clears the
    draft and leaves no todo being edited; it reports no failure: it
    returns [undefined], its one effect is the keyboard being dismissed,
    and the clock and the random source are not read. *)
Theorem stale_submit_is_silent :
  forall (es : list Event) (w : World) (eid : jsstring),
    let m := run es (start w) in
    let m' := exec saveTodo m in
    editingId (ui m) = Some eid ->
    ~ present eid (todos (ui m)) ->
    trim (currentTitle (ui m)) <> [] ->
    todos (ui m') = todos (ui m) /\
    isModalVisible (ui m') = false /\
    currentTitle (ui m') = [] /\
    editingId (ui m') = None /\
    env m' = env m /\
    eval saveTodo m = JsUndefined /\
    emitted saveTodo m = [KeyboardDismiss] /\
    reportsFailure saveTodo m = false.
Proof.
  intros es w eid m m' He Habs Ht.
  assert (Hne : eid <> []).
  { apply (proj2 (run_idsNonEmpty es (start w) (start_idsNonEmpty w)) eid He). }
  pose proof (saveTodo_edit m eid He Hne Ht) as R.
  assert (Hfx : emitted saveTodo m = [KeyboardDismiss])
    by (apply emitted_app; unfold exec; now rewrite R).
  unfold reportsFailure. rewrite Hfx.
  subst m'. unfold exec, eval. rewrite R. cbn [fst snd ui env saved todos
    isModalVisible currentTitle editingId].
  rewrite (count_absent _ _ Habs), advance_0.
  rewrite (stamped_unmatched _ _ _ _ _ (hasId_absent _ _ Habs)).
  repeat split.
Qed.

(** The session names "Task", deleted after the editor was dismissed. *)
Lemma stale_submit_is_silent_witness :
  let es := Scenario.add "Task" ++
            [pressEdit (Scenario.newestId Scenario.oneTask);
             changeText (lit "Task 2"); pressOverlay;
             pressDelete (Scenario.newestId Scenario.oneTask) true] in
  let m := run es (start Scenario.ticking) in
  editingId (ui m) = Some (Scenario.newestId Scenario.oneTask) /\
  todos (ui (exec saveTodo m)) = todos (ui m) /\
  editingId (ui (exec saveTodo m)) = None /\
  reportsFailure saveTodo m = false.
Proof.
  cbv zeta.
  pose proof (stale_submit_is_silent
    (Scenario.add "Task" ++
       [pressEdit (Scenario.newestId Scenario.oneTask);
        changeText (lit "Task 2"); pressOverlay;
        pressDelete (Scenario.newestId Scenario.oneTask) true])
    Scenario.ticking (Scenario.newestId Scenario.oneTask)) as R.
  cbv zeta in R.
  assert (H1 : editingId (ui (run (Scenario.add "Task" ++
       [pressEdit (Scenario.newestId Scenario.oneTask);
        changeText (lit "Task 2"); pressOverlay;
        pressDelete (Scenario.newestId Scenario.oneTask) true])
       (start Scenario.ticking)))
     = Some (Scenario.newestId Scenario.oneTask))
    by (vm_compute; reflexivity).
  specialize (R H1).
  assert (H2 : ~ present (Scenario.newestId Scenario.oneTask)
     (todos (ui (run (Scenario.add "Task" ++
       [pressEdit (Scenario.newestId Scenario.oneTask);
        changeText (lit "Task 2"); pressOverlay;
        pressDelete (Scenario.newestId Scenario.oneTask) true])
       (start Scenario.ticking)))))
    by (vm_compute; tauto).
  specialize (R H2).
  assert (H3 : trim (currentTitle (ui (run (Scenario.add "Task" ++
       [pressEdit (Scenario.newestId Scenario.oneTask);
        changeText (lit "Task 2"); pressOverlay;
        pressDelete (Scenario.newestId Scenario.oneTask) true])
       (start Scenario.ticking)))) <> [])
    by (vm_compute; discriminate).
  specialize (R H3).
  split; [exact H1|]. split; [apply R|]. split; apply R.
Defined.

(** C4, as the specification states it, fails on its own scenario: with
    "Walk dog" active and "Buy milk" completed, the confirmed
    [clearCompleted] removes one item, and the value it returns is
    [undefined], not the number 1. *)
Lemma clearCompleted_returns_no_count :
  let m' := exec (clearCompleted true) Scenario.milkDone in
  List.length (todos (ui Scenario.milkDone)) = 2%nat /\
  List.length (todos (ui m')) = 1%nat /\
  eval (clearCompleted true) Scenario.milkDone <> JsNumber 1.
Proof.
  cbv zeta. split; [vm_compute; reflexivity|].
  split; [vm_compute; reflexivity|vm_compute; discriminate].
Qed.

(** C4, amended.  Once the user confirms, [clearCompleted] leaves exactly
    the items with [completed = false], in their order: what is left is a
    subsequence of the collection, holds no completed item, and contains
    every subsequence of the collection free of completed items.  The
    number of items removed is the number of completed items; the handler
    returns [undefined], not that number.  The rest of the React state and
    the environment are unchanged and no failure is reported.  With no
    completed item the call does nothing and asks nothing; otherwise it
    asks for confirmation.  A second call right after a confirmed one does
    nothing, whatever the answer would be. *)
Theorem clearCompleted_removes_completed :
  forall (m : Machine) (again : bool),
    let m' := exec (clearCompleted true) m in
    todos (ui m') = activeOnly (todos (ui m)) /\
    Subseq (todos (ui m')) (todos (ui m)) /\
    Forall (fun t => completed t = false) (todos (ui m')) /\
    (forall l, Subseq l (todos (ui m)) ->
               Forall (fun t => completed t = false) l ->
               Subseq l (todos (ui m'))) /\
    List.length (todos (ui m))
    = (List.length (todos (ui m')) + count completed (todos (ui m)))%nat /\
    ui m' = withTodos (todos (ui m')) (ui m) /\
    env m' = env m /\
    eval (clearCompleted true) m = JsUndefined /\
    reportsFailure (clearCompleted true) m = false /\
    (if existsb completed (todos (ui m))
     then emitted (clearCompleted true) m = [clearPrompt (platform (env m))]
     else m' = m /\ emitted (clearCompleted true) m = []) /\
    exec (clearCompleted again) m' = m' /\
    emitted (clearCompleted again) m' = [] /\
    eval (clearCompleted again) m' = JsUndefined.
Proof.
  intros m again m'.
  assert (Hnone : existsb completed (todos (ui m)) = false ->
                  activeOnly (todos (ui m)) = todos (ui m)).
  { intros E. unfold activeOnly. apply forallb_filter_id.
    apply forallb_forall. intros t Ht.
    destruct (completed t) eqn:Ec; [|reflexivity].
    assert (X : existsb completed (todos (ui m)) = true)
      by (apply existsb_exists; eauto).
    congruence. }
  assert (Hl : todos (ui m') = activeOnly (todos (ui m))).
  { subst m'. unfold exec. rewrite clearCompleted_run.
    destruct (existsb _ (todos (ui m))) eqn:E; [reflexivity|].
    cbn. symmetry. now apply Hnone. }
  assert (Hfx : emitted (clearCompleted true) m
                = if existsb completed (todos (ui m))
                  then [clearPrompt (platform (env m))] else []).
  { apply emitted_app. unfold exec. rewrite clearCompleted_run.
    destruct (existsb _ (todos (ui m))); cbn; [reflexivity|].
    now rewrite app_nil_r. }
  assert (Hsecond : clearCompleted again m' = (JsUndefined, m')).
  { rewrite clearCompleted_run, Hl. unfold activeOnly.
    now rewrite (existsb_filter_nil completed). }
  split; [exact Hl|]. rewrite Hl.
  split; [apply Subseq_filter|].
  split.
  { apply Forall_forall. intros t Ht. apply filter_In in Ht as [_ Ht].
    now apply negb_true_iff. }
  split.
  { intros l Hs Hall. apply Subseq_filter_max; [exact Hs|].
    eapply Forall_impl; [|exact Hall]. intros t Ht. cbn. now rewrite Ht. }
  split; [apply (filter_partition_length completed)|].
  split.
  { subst m'. unfold exec. rewrite clearCompleted_run.
    destruct (existsb _ (todos (ui m))); cbn; [reflexivity|].
    rewrite (Hnone eq_refl). symmetry. apply state_eta. }
  split.
  { subst m'. unfold exec. rewrite clearCompleted_run.
    now destruct (existsb _ (todos (ui m))). }
  split.
  { unfold eval. rewrite clearCompleted_run.
    now destruct (existsb _ (todos (ui m))). }
  split.
  { unfold reportsFailure. rewrite Hfx.
    destruct (existsb _ (todos (ui m))); [|reflexivity].
    now destruct (platform (env m)). }
  split.
  { rewrite Hfx. destruct (existsb completed (todos (ui m))) eqn:E;
      [reflexivity|].
    split; [|reflexivity]. subst m'. unfold exec.
    rewrite clearCompleted_run. change (fun t => completed t) with completed.
    now rewrite E. }
  split; [unfold exec; now rewrite Hsecond|].
  split; [|unfold eval; now rewrite Hsecond].
  apply emitted_app. unfold exec. rewrite Hsecond. cbn. now rewrite app_nil_r.
Qed.

(** C5, as the specification states it, fails: when two presses on the
    checkbox of a todo read the same value of the clock, [updatedAt] is the
    same after the second as after the first; it has not strictly
    increased. *)
Lemma toggle_twice_same_stamp :
  let m0 := run (Scenario.add "Task") (start Scenario.frozen) in
  let X := Scenario.newestId m0 in
  let m1 := exec (toggleComplete X) m0 in
  let m2 := exec (toggleComplete X) m1 in
  present X (todos (ui m0)) /\
  exists u1 u2 : Z,
    map updatedAt (todos (ui m1)) = [Some u1] /\
    map updatedAt (todos (ui m2)) = [Some u2] /\
    ~ (u1 < u2)%Z.
Proof.
  cbv zeta. split; [vm_compute; now left|].
  exists 1700000000000%Z, 1700000000000%Z.
  split; [vm_compute; reflexivity|].
  split; [vm_compute; reflexivity|lia].
Qed.

(** C5, amended.  For a todo of the collection with the given id, at any
    position, [toggleComplete] flips [completed], sets [updatedAt] to a
    reading of the clock taken during the call, and keeps the id, title,
    [createdAt] and position.  A second call restores the original
    [completed] value and sets [updatedAt] to a later reading of the clock:
    [updatedAt] strictly increases from one call to the next when the
    clock's successive readings strictly increase. *)
Theorem toggle_flips_and_stamps :
  forall (m : Machine) (id0 : jsstring) (i : nat) (t : Todo),
    nth_error (todos (ui m)) i = Some t ->
    id t = id0 ->
    let m1 := exec (toggleComplete id0) m in
    let m2 := exec (toggleComplete id0) m1 in
    exists r1 r2 : nat,
      (ticks (env m) <= r1 < ticks (env m1))%nat /\
      (ticks (env m1) <= r2 < ticks (env m2))%nat /\
      nth_error (todos (ui m1)) i
      = Some (mkTodo (id t) (title t) (negb (completed t)) (createdAt t)
                (Some (clock (env m) r1))) /\
      nth_error (todos (ui m2)) i
      = Some (mkTodo (id t) (title t) (completed t) (createdAt t)
                (Some (clock (env m) r2))) /\
      ((forall a b, (a < b)%nat -> (clock (env m) a < clock (env m) b)%Z) ->
       (clock (env m) r1 < clock (env m) r2)%Z).
Proof.
  intros m id0 i t Hi Hid m1 m2.
  assert (Hp : hasId id0 t = true)
    by (unfold hasId; rewrite Hid; apply str_eqb_refl).
  set (l := todos (ui m)) in *.
  set (l1 := stamped (hasId id0) toggled (clock (env m)) (ticks (env m)) l).
  set (t1 := toggled t (clock (env m)
                 (ticks (env m) + count (hasId id0) (firstn i l)))).
  assert (R1 : toggleComplete id0 m
               = (JsUndefined,
                  mkMachine (withTodos l1 (ui m))
                    (advance (count (hasId id0) l) (env m)) (out m)))
    by apply toggleComplete_run.
  assert (Hi1 : nth_error l1 i = Some t1).
  { unfold l1. rewrite (stamped_nth _ _ _ _ _ _ _ Hi), Hp. reflexivity. }
  assert (Hp1 : hasId id0 t1 = true) by exact Hp.
  pose proof (toggleComplete_run id0 m1) as R2.
  assert (E1 : m1 = mkMachine (withTodos l1 (ui m))
                      (advance (count (hasId id0) l) (env m)) (out m)).
  { subst m1. unfold exec. now rewrite R1. }
  assert (Hl1 : todos (ui m1) = l1) by (rewrite E1; reflexivity).
  assert (Hc1 : clock (env m1) = clock (env m)) by (rewrite E1; reflexivity).
  assert (Hk1 : ticks (env m1)
                = (ticks (env m) + count (hasId id0) l)%nat)
    by (rewrite E1; reflexivity).
  rewrite Hl1, Hc1 in R2.
  pose proof (count_firstn_lt (hasId id0) l i t Hi Hp) as B1.
  pose proof (count_firstn_lt (hasId id0) l1 i t1 Hi1 Hp1) as B2.
  exists (ticks (env m) + count (hasId id0) (firstn i l))%nat.
  exists (ticks (env m1) + count (hasId id0) (firstn i l1))%nat.
  split; [lia|].
  split.
  { subst m2. unfold exec. rewrite R2. cbn [snd env advance ticks]. lia. }
  split; [rewrite Hl1; exact Hi1|].
  split.
  { subst m2. unfold exec. rewrite R2. cbn [snd ui withTodos todos].
    rewrite (stamped_nth _ _ _ _ _ _ _ Hi1), Hp1.
    unfold t1, toggled. cbn. now rewrite negb_involutive. }
  intros Hmono. apply Hmono. lia.
Qed.

(** Two presses on the checkbox of "Task". *)
Lemma toggle_flips_and_stamps_witness :
  let X := Scenario.newestId Scenario.oneTask in
  exists t r1 r2,
    nth_error (todos (ui Scenario.oneTask)) 0 = Some t /\ id t = X /\
    nth_error (todos (ui (exec (toggleComplete X) Scenario.oneTask))) 0
    = Some (mkTodo (id t) (title t) (negb (completed t)) (createdAt t)
              (Some (clock (env Scenario.oneTask) r1))) /\
    nth_error (todos (ui (exec (toggleComplete X)
                            (exec (toggleComplete X) Scenario.oneTask)))) 0
    = Some (mkTodo (id t) (title t) (completed t) (createdAt t)
              (Some (clock (env Scenario.oneTask) r2))).
Proof.
  cbv zeta.
  assert (H : nth_error (todos (ui Scenario.oneTask)) 0
              = Some (mkTodo (Scenario.newestId Scenario.oneTask) (lit "Task")
                        false 1700000000001 None))
    by (vm_compute; reflexivity).
  destruct (toggle_flips_and_stamps Scenario.oneTask
              (Scenario.newestId Scenario.oneTask) 0 _ H eq_refl)
    as [r1 [r2 [_ [_ [H1 [H2 _]]]]]].
  eexists. exists r1, r2.
  split; [exact H|]. split; [reflexivity|]. split; [exact H1|exact H2].
Defined.

Lemma NoDup_ids_position (l : list Todo) (i j : nat) (t u : Todo) :
  NoDup (ids l) ->
  nth_error l i = Some t -> nth_error l j = Some u -> id t = id u -> i = j.
Proof.
  intros Hn Hi Hj E. unfold ids in Hn.
  apply (proj1 (NoDup_nth_error (map id l)) Hn).
  - rewrite length_map. apply nth_error_Some. congruence.
  - rewrite (map_nth_error id _ _ Hi), (map_nth_error id _ _ Hj). congruence.
Qed.

(** C7, as the specification states it, fails: in the collection of two
    todos that got the same id, "b" and "a", the editor is opened on that
    id and "c" is submitted.  All the claim asks for holds (the id is in the
    collection, the trimmed draft is non-empty), yet both titles become
    "c": whichever todo is taken for the edited one, another todo has
    changed. *)
Lemma edit_retitles_twins :
  let m := run Scenario.twinsRenaming (start Scenario.frozen) in
  let m' := exec saveTodo m in
  (exists eid, editingId (ui m) = Some eid /\ present eid (todos (ui m))) /\
  trim (currentTitle (ui m)) = lit "c" /\
  map title (todos (ui m)) = [lit "b"; lit "a"] /\
  map title (todos (ui m')) = [lit "c"; lit "c"] /\
  ~ (exists i, forall j u,
        j <> i -> nth_error (todos (ui m)) j = Some u ->
        nth_error (todos (ui m')) j = Some u).
Proof.
  cbv zeta.
  split; [eexists; split; [vm_compute; reflexivity|vm_compute; now left]|].
  split; [vm_compute; reflexivity|].
  split; [vm_compute; reflexivity|].
  split; [vm_compute; reflexivity|].
  intros [i H].
  assert (H0 : exists u,
    nth_error (todos (ui (run Scenario.twinsRenaming (start Scenario.frozen)))) 0
    = Some u /\ title u = lit "b") by (eexists; split; vm_compute; reflexivity).
  assert (H1 : exists u,
    nth_error (todos (ui (run Scenario.twinsRenaming (start Scenario.frozen)))) 1
    = Some u /\ title u = lit "a") by (eexists; split; vm_compute; reflexivity).
  assert (T : forall j u,
    nth_error (todos (ui (exec saveTodo
      (run Scenario.twinsRenaming (start Scenario.frozen))))) j = Some u ->
    title u = lit "c").
  { intros [|[|j]] u Hu; vm_compute in Hu.
    - injection Hu as <-. reflexivity.
    - injection Hu as <-. reflexivity.
    - destruct j; discriminate Hu. }
  destruct i as [|i].
  - destruct H1 as [u [Hu Ht]].
    pose proof (T 1%nat u (H 1%nat u ltac:(discriminate) Hu)) as Hc.
    rewrite Ht in Hc. discriminate Hc.
  - destruct H0 as [u [Hu Ht]].
    pose proof (T 0%nat u (H 0%nat u ltac:(discriminate) Hu)) as Hc.
    rewrite Ht in Hc. discriminate Hc.
Qed.

(** C7, amended.  In every state the component can reach, submitting an
    edit of an id of the collection with a draft whose trimmed form is
    non-empty keeps the length of the collection, and, position by
    position, replaces every todo with the edited id by the same todo with
    the trimmed draft as title and a reading of the clock taken during the
    call as [updatedAt] (same id, [completed] and [createdAt]), and keeps
    every todo with another id as it was.  At least one position holds the
    edited id; when no two todos share an id, exactly one does, and the
    todo at every other position is unchanged. *)
Theorem updateTitle_frame :
  forall (es : list Event) (w : World) (eid : jsstring),
    let m := run es (start w) in
    let m' := exec saveTodo m in
    editingId (ui m) = Some eid ->
    present eid (todos (ui m)) ->
    trim (currentTitle (ui m)) <> [] ->
    List.length (todos (ui m')) = List.length (todos (ui m)) /\
    (exists i t, nth_error (todos (ui m)) i = Some t /\ id t = eid) /\
    (forall i t,
       nth_error (todos (ui m)) i = Some t ->
       if str_eqb (id t) eid then
         exists r : nat,
           (ticks (env m) <= r < ticks (env m'))%nat /\
           nth_error (todos (ui m')) i
           = Some (mkTodo (id t) (trim (currentTitle (ui m))) (completed t)
                     (createdAt t) (Some (clock (env m) r)))
       else nth_error (todos (ui m')) i = Some t) /\
    (NoDup (ids (todos (ui m))) ->
     exists i t,
       nth_error (todos (ui m)) i = Some t /\ id t = eid /\
       forall j u,
         j <> i -> nth_error (todos (ui m)) j = Some u ->
         nth_error (todos (ui m')) j = Some u).
Proof.
  intros es w eid m m' He Hin Ht.
  assert (Hne : eid <> []).
  { apply (proj2 (run_idsNonEmpty es (start w) (start_idsNonEmpty w)) eid He). }
  pose proof (saveTodo_edit m eid He Hne Ht) as R.
  assert (E' : m' = mkMachine
     (saved (stamped (hasId eid) (retitled (trim (currentTitle (ui m))))
               (clock (env m)) (ticks (env m)) (todos (ui m))) (ui m))
     (advance (count (hasId eid) (todos (ui m))) (env m))
     (out m ++ [KeyboardDismiss])).
  { subst m'. unfold exec. now rewrite R. }
  rewrite E'. cbn [ui env saved todos advance ticks].
  assert (Hsome : exists i t, nth_error (todos (ui m)) i = Some t /\ id t = eid).
  { unfold present, ids in Hin. apply in_map_iff in Hin as [t [Hid Hint]].
    apply In_nth_error in Hint as [i Hi]. eauto. }
  split; [apply stamped_length|].
  split; [exact Hsome|].
  split.
  { intros i t Hi. rewrite (stamped_nth _ _ _ _ _ _ _ Hi).
    change (hasId eid t) with (str_eqb (id t) eid).
    destruct (str_eqb (id t) eid) eqn:Ep; [|reflexivity].
    eexists. split; [|reflexivity].
    pose proof (count_firstn_lt (hasId eid) _ i t Hi Ep). lia. }
  intros Hn. destruct Hsome as [i [t [Hi Hid]]].
  exists i, t. split; [exact Hi|]. split; [exact Hid|].
  intros j u Hj Hu. rewrite (stamped_nth _ _ _ _ _ _ _ Hu).
  destruct (hasId eid u) eqn:Ep; [|reflexivity].
  exfalso. apply Hj. unfold hasId in Ep. apply str_eqb_eq in Ep.
  apply (NoDup_ids_position _ _ _ _ _ Hn Hu Hi). congruence.
Qed.

(** "Task" renamed to "Renamed", typed with blanks around it. *)
Lemma updateTitle_frame_witness :
  let m := run Scenario.renaming (start Scenario.ticking) in
  editingId (ui m) = Some (Scenario.newestId Scenario.oneTask) /\
  present (Scenario.newestId Scenario.oneTask) (todos (ui m)) /\
  trim (currentTitle (ui m)) = lit "Renamed" /\
  List.length (todos (ui (exec saveTodo m))) = List.length (todos (ui m)).
Proof.
  cbv zeta.
  assert (H1 : editingId (ui (run Scenario.renaming (start Scenario.ticking)))
               = Some (Scenario.newestId Scenario.oneTask))
    by (vm_compute; reflexivity).
  assert (H2 : present (Scenario.newestId Scenario.oneTask)
                 (todos (ui (run Scenario.renaming (start Scenario.ticking)))))
    by (vm_compute; now left).
  assert (H3 : trim (currentTitle
                 (ui (run Scenario.renaming (start Scenario.ticking))))
               = lit "Renamed")
    by (vm_compute; reflexivity).
  split; [exact H1|]. split; [exact H2|]. split; [exact H3|].
  apply (updateTitle_frame Scenario.renaming Scenario.ticking _ H1 H2).
  rewrite H3. discriminate.
Defined.

(** C8, as the specification states it, fails: two todos created while the
    clock returns the same value and [Math.random] the same number get the
    same id, so the collection reached from the empty one holds two todos
    that share an id. *)
Lemma twins_share_an_id :
  let l := todos (ui (run Scenario.twins (start Scenario.frozen))) in
  map title l = [lit "b"; lit "a"] /\
  ~ NoDup (ids l).
Proof.
  cbv zeta. split; [vm_compute; reflexivity|].
  intros H.
  assert (E : ids (todos (ui (run Scenario.twins (start Scenario.frozen))))
              = [lit "1700000000000-k3x9q2"; lit "1700000000000-k3x9q2"])
    by (vm_compute; reflexivity).
  rewrite E in H. inversion H as [|? ? Hn _]; subst.
  apply Hn. now left.
Qed.

(** C8, amended.  In every collection reached from the empty one by any
    sequence of events (create, title update, toggle, delete, clear
    completed, and the events that do not touch the store), every todo has
    a non-empty title that is its own trimmed form.  No two todos share an
    id provided every create along the way generated an id that no todo of
    the collection had at that moment; the component itself does not check
    this. *)
Theorem store_invariant :
  forall (es : list Event) (w : World),
    let l := todos (ui (run es (start w))) in
    Forall titleOk l /\
    (freshIds es (start w) -> NoDup (ids l)).
Proof.
  intros es w l. subst l.
  assert (G : forall m,
             Forall titleOk (todos (ui m)) ->
             Forall titleOk (todos (ui (run es m)))
             /\ (NoDup (ids (todos (ui m))) -> freshIds es m ->
                 NoDup (ids (todos (ui (run es m)))))).
  { induction es as [|e r IH]; intros m Ht; cbn [run freshIds].
    - split; [exact Ht|tauto].
    - destruct (IH (exec (handle e) m) (handle_titleOk e m Ht)) as [I1 I2].
      split; [exact I1|].
      intros Hn [Hf Hr]. apply I2; [|exact Hr].
      now apply handle_NoDup. }
  destruct (G (start w)) as [G1 G2]; [constructor|].
  split; [exact G1|]. intros Hf. apply G2; [constructor|exact Hf].
Qed.

(** Two creates on a clock that advances. *)
Lemma store_invariant_witness :
  let es := Scenario.add "a" ++ Scenario.add "b" in
  freshIds es (start Scenario.ticking) /\
  NoDup (ids (todos (ui (run es (start Scenario.ticking))))).
Proof.
  cbv zeta.
  assert (H : freshIds (Scenario.add "a" ++ Scenario.add "b")
                (start Scenario.ticking)).
  { cbn [Scenario.add app freshIds].
    repeat split; try discriminate; intros _ _.
    - vm_compute. tauto.
    - vm_compute. intros [E|[]]. discriminate E. }
  split; [exact H|].
  apply (proj2 (store_invariant (Scenario.add "a" ++ Scenario.add "b")
                  Scenario.ticking) H).
Defined.

(** The session of the specification's test list: "Buy milk" then "Walk
    dog" are created, "Buy milk" is completed, and the completed items are
    cleared. *)
Example milk_and_dog :
  let m := Scenario.milkDone in
  map title (todos (ui m)) = [lit "Walk dog"; lit "Buy milk"] /\
  map title (visible (todos (ui m)) active) = [lit "Walk dog"] /\
  map title (visible (todos (ui m)) completed_only) = [lit "Buy milk"] /\
  map title (todos (ui (exec (clearCompleted true) m))) = [lit "Walk dog"] /\
  todos (ui (exec saveTodo (run [pressAdd] (start Scenario.ticking)))) = [].
Proof. cbv zeta. repeat split; vm_compute; reflexivity. Qed.

(* ================================================================== *)
(** ** Opening the editor *)
(* ================================================================== *)

Lemma find_first (id0 : jsstring) (l : list Todo) :
  present id0 l ->
  exists l1 t l2,
    l = l1 ++ t :: l2 /\ ~ present id0 l1 /\ id t = id0 /\
    List.find (fun x => str_eqb (id x) id0) l = Some t.
Proof.
  unfold present, ids. induction l as [|x r IH]; simpl; [tauto|].
  intros H. destruct (str_eqb (id x) id0) eqn:E.
  - apply str_eqb_eq in E. exists [], x, r. simpl. tauto.
  - destruct H as [H|H]; [subst; now rewrite str_eqb_refl in E|].
    destruct (IH H) as [l1 [t [l2 [Hl [Hn [Hid Hf]]]]]].
    exists (x :: l1), t, l2. simpl.
    split; [now rewrite Hl|]. split; [|split; [exact Hid|exact Hf]].
    intros [Hx|Hx]; [|tauto].
    rewrite Hx, str_eqb_refl in E. discriminate.
Qed.

Lemma openEditModal_found (id0 : jsstring) (m : Machine) (t : Todo) :
  List.find (fun x => str_eqb (id x) id0) (todos (ui m)) = Some t ->
  openEditModal id0 m =
  (JsUndefined,
   mkMachine (mkState (todos (ui m)) (filter (ui m)) true (title t) (Some id0))
     (env m) (out m ++ [FocusInputAfter 50])).
Proof.
  intros H. unfold openEditModal, bind, getState. now rewrite H.
Qed.

(** X1. [openEditModal] on an id of the collection opens the editor on the
    first todo with that id: the draft becomes that todo's title, whatever
    was typed before, [editingId] becomes the id, the collection, the
    filter and the environment are unchanged, and the one effect is the
    focus timer. *)
Theorem openEditModal_opens_first_match :
  forall (m : Machine) (id0 : jsstring),
    present id0 (todos (ui m)) ->
    exists l1 t l2,
      todos (ui m) = l1 ++ t :: l2 /\
      ~ present id0 l1 /\
      id t = id0 /\
      ui (exec (openEditModal id0) m)
      = mkState (todos (ui m)) (filter (ui m)) true (title t) (Some id0) /\
      env (exec (openEditModal id0) m) = env m /\
      emitted (openEditModal id0) m = [FocusInputAfter 50].
Proof.
  intros m id0 H.
  destruct (find_first _ _ H) as [l1 [t [l2 [Hl [Hn [Hid Hf]]]]]].
  pose proof (openEditModal_found id0 m t Hf) as R.
  exists l1, t, l2. repeat (split; [assumption|]).
  split; [unfold exec; now rewrite R|].
  split; [unfold exec; now rewrite R|].
  apply emitted_app. unfold exec. now rewrite R.
Qed.

(** Opening the editor on "Task" after a draft was typed and dismissed. *)
Lemma openEditModal_opens_first_match_witness :
  let m := run [pressAdd; changeText (lit "left over"); pressOverlay]
             Scenario.oneTask in
  present (Scenario.newestId Scenario.oneTask) (todos (ui m)) /\
  currentTitle (ui m) = lit "left over" /\
  currentTitle (ui (exec (openEditModal (Scenario.newestId Scenario.oneTask)) m))
  = lit "Task".
Proof.
  cbv zeta.
  assert (H : present (Scenario.newestId Scenario.oneTask)
                (todos (ui (run [pressAdd; changeText (lit "left over");
                                 pressOverlay] Scenario.oneTask))))
    by (vm_compute; now left).
  split; [exact H|]. split; [vm_compute; reflexivity|].
  destruct (openEditModal_opens_first_match _ _ H)
    as [l1 [t [l2 [Hl [Hn [Hid [Hu _]]]]]]].
  rewrite Hu. cbn [currentTitle].
  assert (E : todos (ui (run [pressAdd; changeText (lit "left over");
                              pressOverlay] Scenario.oneTask))
              = [mkTodo (Scenario.newestId Scenario.oneTask) (lit "Task")
                   false 1700000000001 None])
    by (vm_compute; reflexivity).
  rewrite E in Hl. destruct l1 as [|x l1].
  - injection Hl as <- _. reflexivity.
  - injection Hl as _ Hl. destruct l1; discriminate Hl.
Defined.

(* ================================================================== *)
(** ** The add flow *)
(* ================================================================== *)

Lemma addFlow_run (s : jsstring) (m : Machine) :
  trim s <> [] ->
  run (addFlow s) m =
  mkMachine (saved (created m (trim s) :: todos (ui m)) (ui m))
    (mkWorld (platform (env m)) (clock (env m)) (S (S (ticks (env m))))
       (random36 (env m)) (S (draws (env m))))
    (out m ++ [FocusInputAfter 50; KeyboardDismiss]).
Proof.
  intros Hs. unfold addFlow. cbn [run handle].
  set (m2 := exec (setCurrentTitle s;; ret JsUndefined) (exec openAddModal m)).
  assert (E2 : m2 = mkMachine (mkState (todos (ui m)) (filter (ui m)) true s None)
                      (env m) (out m ++ [FocusInputAfter 50]))
    by reflexivity.
  assert (Hc : creates m2 = true).
  { rewrite E2. unfold creates. cbn [ui currentTitle editingId].
    rewrite (proj2 (truthy_true _) Hs). reflexivity. }
  unfold exec at 1. rewrite (saveTodo_create m2 Hc), E2.
  cbn [snd ui env out saved todos filter currentTitle platform clock ticks
       random36 draws]. unfold created, saved.
  now rewrite <- app_assoc.
Qed.

(** X2. Pressing Add, typing a title whose trimmed form is non-empty and
    submitting always creates: whatever the session was before (a draft
    left over, a todo still named by [editingId]), the collection gets the
    new todo in front and is otherwise unchanged, the editor is closed with
    an empty draft, and no failure is reported. *)
Theorem addFlow_always_creates :
  forall (m : Machine) (s : jsstring),
    trim s <> [] ->
    let m' := run (addFlow s) m in
    todos (ui m') = created m (trim s) :: todos (ui m) /\
    filter (ui m') = filter (ui m) /\
    isModalVisible (ui m') = false /\
    currentTitle (ui m') = [] /\
    editingId (ui m') = None /\
    out m' = out m ++ [FocusInputAfter 50; KeyboardDismiss].
Proof.
  intros m s Hs m'. subst m'. rewrite (addFlow_run s m Hs).
  repeat split.
Qed.

(** Adding "Errand" while the session still names the deleted "Task". *)
Lemma addFlow_always_creates_witness :
  editingId (ui Scenario.staleEdit) <> None /\
  trim (lit " Errand ") <> [] /\
  map title (todos (ui (run (addFlow (lit " Errand ")) Scenario.staleEdit)))
  = [lit "Errand"].
Proof.
  assert (H : trim (lit " Errand ") <> []) by (vm_compute; discriminate).
  split; [vm_compute; discriminate|]. split; [exact H|].
  rewrite (proj1 (addFlow_always_creates Scenario.staleEdit _ H)).
  vm_compute. reflexivity.
Defined.

(** X3. A todo just created is found by its id: opening the editor on the
    generated id right after the add flow shows the trimmed title as draft
    and names that id, even when an older todo happens to have the same
    id. *)
Theorem created_todo_is_found :
  forall (m : Machine) (s : jsstring),
    trim s <> [] ->
    let m' := run (addFlow s) m in
    ui (exec (openEditModal (nextId (env m))) m')
    = mkState (todos (ui m')) (filter (ui m)) true (trim s)
        (Some (nextId (env m))).
Proof.
  intros m s Hs m'. subst m'. rewrite (addFlow_run s m Hs).
  unfold exec.
  rewrite (openEditModal_found _ _ (created m (trim s))); [reflexivity|].
  cbn [ui saved todos List.find created id]. now rewrite str_eqb_refl.
Qed.

(** Two todos with one id in the frozen world: the newer one is found. *)
Lemma created_todo_is_found_witness :
  let m := run (Scenario.add "a") (start Scenario.frozen) in
  trim (lit "b") <> [] /\
  present (nextId (env m)) (todos (ui m)) /\
  currentTitle (ui (exec (openEditModal (nextId (env m)))
                      (run (addFlow (lit "b")) m))) = lit "b".
Proof.
  cbv zeta.
  assert (H : trim (lit "b") <> []) by (vm_compute; discriminate).
  split; [exact H|]. split; [vm_compute; now left|].
  rewrite (created_todo_is_found _ _ H). reflexivity.
Defined.

(** X4. Creating a todo and deleting it by its generated id gives back the
    collection there was, provided no older todo had that id. *)
Theorem create_then_delete_restores :
  forall (m : Machine) (s : jsstring),
    trim s <> [] ->
    ~ present (nextId (env m)) (todos (ui m)) ->
    todos (ui (run (addFlow s ++ [pressDelete (nextId (env m)) true]) m))
    = todos (ui m).
Proof.
  intros m s Hs Hfresh. rewrite run_app. rewrite (addFlow_run s m Hs).
  cbn [run handle]. unfold exec. rewrite deleteTodo_run.
  cbn [snd ui saved withTodos todos]. unfold without at 1.
  cbn [List.filter created id]. rewrite str_eqb_refl. cbn [negb].
  now apply without_absent.
Qed.

(** "Errand" added to "Task" and deleted again. *)
Lemma create_then_delete_restores_witness :
  trim (lit "Errand") <> [] /\
  ~ present (nextId (env Scenario.oneTask)) (todos (ui Scenario.oneTask)) /\
  todos (ui (run (addFlow (lit "Errand")
                  ++ [pressDelete (nextId (env Scenario.oneTask)) true])
               Scenario.oneTask))
  = todos (ui Scenario.oneTask).
Proof.
  assert (H1 : trim (lit "Errand") <> []) by (vm_compute; discriminate).
  assert (H2 : ~ present (nextId (env Scenario.oneTask))
                 (todos (ui Scenario.oneTask))).
  { vm_compute. intros [E|[]]. discriminate E. }
  split; [exact H1|]. split; [exact H2|].
  apply (create_then_delete_restores _ _ H1 H2).
Defined.

(* ================================================================== *)
(** ** Toggling and deleting *)
(* ================================================================== *)

(** X5. [toggleComplete] on an id that no todo of the collection has does
    nothing: the machine is left as it was, the clock is not read, and
    nothing is shown. *)
Theorem toggle_absent_noop :
  forall (m : Machine) (id0 : jsstring),
    ~ present id0 (todos (ui m)) ->
    exec (toggleComplete id0) m = m /\
    emitted (toggleComplete id0) m = [].
Proof.
  intros m id0 H.
  assert (R : toggleComplete id0 m = (JsUndefined, m)).
  { rewrite toggleComplete_run, (count_absent _ _ H), advance_0.
    rewrite (stamped_unmatched _ _ _ _ _ (hasId_absent _ _ H)).
    now rewrite state_eta, machine_eta. }
  split; [unfold exec; now rewrite R|].
  apply emitted_app. unfold exec. rewrite R. cbn. now rewrite app_nil_r.
Qed.

(** A press on the checkbox of the deleted "Task". *)
Lemma toggle_absent_noop_witness :
  ~ present (Scenario.newestId Scenario.oneTask)
      (todos (ui Scenario.staleEdit)) /\
  exec (toggleComplete (Scenario.newestId Scenario.oneTask)) Scenario.staleEdit
  = Scenario.staleEdit.
Proof.
  assert (H : ~ present (Scenario.newestId Scenario.oneTask)
                (todos (ui Scenario.staleEdit)))
    by (vm_compute; tauto).
  split; [exact H|]. apply (toggle_absent_noop _ _ H).
Defined.

(** X6. A declined confirmation changes nothing: when the user does not
    confirm, [deleteTodo] and [clearCompleted] leave the React state and
    the environment as they were, on every platform; the dialog is the
    only effect, and [clearCompleted] shows it only when some todo is
    completed. *)
Theorem declined_dialog_changes_nothing :
  forall (m : Machine) (id0 : jsstring),
    ui (exec (deleteTodo id0 false) m) = ui m /\
    env (exec (deleteTodo id0 false) m) = env m /\
    emitted (deleteTodo id0 false) m = [deletePrompt (platform (env m))] /\
    ui (exec (clearCompleted false) m) = ui m /\
    env (exec (clearCompleted false) m) = env m /\
    emitted (clearCompleted false) m
    = (if existsb completed (todos (ui m))
       then [clearPrompt (platform (env m))] else []).
Proof.
  intros m id0.
  split; [unfold exec; now rewrite deleteTodo_run|].
  split; [unfold exec; now rewrite deleteTodo_run|].
  split; [apply emitted_app; unfold exec; now rewrite deleteTodo_run|].
  assert (R := clearCompleted_run false m).
  change (fun t => completed t) with completed in R.
  split; [unfold exec; rewrite R; now destruct (existsb _ _)|].
  split; [unfold exec; rewrite R; now destruct (existsb _ _)|].
  apply emitted_app. unfold exec. rewrite R.
  destruct (existsb _ _); cbn; [reflexivity|now rewrite app_nil_r].
Qed.

Lemma without_In (id0 : jsstring) (l : list Todo) (t : Todo) :
  In t (without id0 l) <-> In t l /\ id t <> id0.
Proof.
  unfold without. rewrite filter_In, negb_true_iff. split; intros [H1 H2].
  - split; [exact H1|]. intros E. rewrite E, str_eqb_refl in H2. discriminate.
  - split; [exact H1|]. now apply str_eqb_neq.
Qed.

(** X7. A confirmed [deleteTodo] removes every todo with the given id and
    nothing else: what is left is a subsequence of the collection, made of
    exactly the todos with another id, as many as there were minus those
    with the id.  The filter, the editor and the draft are untouched, and
    so is [editingId], even when it names the deleted todo. *)
Theorem delete_removes_the_id :
  forall (m : Machine) (id0 : jsstring),
    let m' := exec (deleteTodo id0 true) m in
    Subseq (todos (ui m')) (todos (ui m)) /\
    (forall t, In t (todos (ui m')) <-> In t (todos (ui m)) /\ id t <> id0) /\
    (forall l, Subseq l (todos (ui m)) ->
               Forall (fun t => id t <> id0) l ->
               Subseq l (todos (ui m'))) /\
    List.length (todos (ui m))
    = (List.length (todos (ui m')) + count (hasId id0) (todos (ui m)))%nat /\
    ui m' = withTodos (todos (ui m')) (ui m) /\
    editingId (ui m') = editingId (ui m) /\
    env m' = env m.
Proof.
  intros m id0 m'. subst m'. unfold exec. rewrite deleteTodo_run.
  cbn [snd ui env withTodos todos editingId].
  split; [apply Subseq_filter|].
  split; [apply without_In|].
  split.
  { intros l Hs Hall. apply Subseq_filter_max; [exact Hs|].
    eapply Forall_impl; [|exact Hall]. intros t Ht. cbn.
    now rewrite str_eqb_neq. }
  split; [apply (filter_partition_length (hasId id0))|].
  repeat split.
Qed.

Lemma NoDup_ids_same (l : list Todo) (t u : Todo) :
  NoDup (ids l) -> In t l -> In u l -> id t = id u -> t = u.
Proof.
  unfold ids. induction l as [|x r IH]; simpl; intros Hn Ht Hu E; [tauto|].
  inversion Hn as [|? ? Hx Hr]; subst.
  destruct Ht as [Ht|Ht], Hu as [Hu|Hu]; subst.
  - reflexivity.
  - exfalso. apply Hx. rewrite E. now apply in_map.
  - exfalso. apply Hx. rewrite <- E. now apply in_map.
  - now apply IH.
Qed.

Lemma count_unique (id0 : jsstring) (l : list Todo) :
  NoDup (ids l) -> present id0 l -> count (hasId id0) l = 1%nat.
Proof.
  unfold present, ids. induction l as [|x r IH]; simpl; intros Hn Hp; [tauto|].
  inversion Hn as [|? ? Hx Hr]; subst. rewrite count_cons. unfold hasId at 1.
  destruct (str_eqb (id x) id0) eqn:E.
  - apply str_eqb_eq in E. subst id0. f_equal. now apply count_absent.
  - destruct Hp as [Hp|Hp]; [rewrite Hp, str_eqb_refl in E; discriminate|].
    now apply IH.
Qed.

(** X8. When no two todos share an id, a confirmed [deleteTodo] of an id of
    the collection removes exactly one todo. *)
Theorem delete_removes_one :
  forall (m : Machine) (id0 : jsstring),
    NoDup (ids (todos (ui m))) ->
    present id0 (todos (ui m)) ->
    List.length (todos (ui m))
    = S (List.length (todos (ui (exec (deleteTodo id0 true) m)))).
Proof.
  intros m id0 Hn Hp. unfold exec. rewrite deleteTodo_run.
  cbn [snd ui withTodos todos].
  rewrite (filter_partition_length (hasId id0) (todos (ui m))).
  fold (count (hasId id0) (todos (ui m))). rewrite (count_unique _ _ Hn Hp).
  unfold without, hasId. lia.
Qed.

(** Deleting "Buy milk" from "Walk dog", "Buy milk". *)
Lemma delete_removes_one_witness :
  let X := Scenario.newestId Scenario.milkDone in
  NoDup (ids (todos (ui Scenario.milkDone))) /\
  present X (todos (ui Scenario.milkDone)) /\
  List.length (todos (ui Scenario.milkDone))
  = S (List.length (todos (ui (exec (deleteTodo X true) Scenario.milkDone)))).
Proof.
  cbv zeta.
  assert (H1 : NoDup (ids (todos (ui Scenario.milkDone)))).
  { assert (E : ids (todos (ui Scenario.milkDone))
                = [lit "1700000000002-k3x9q2"; lit "1700000000000-k3x9q2"])
      by (vm_compute; reflexivity).
    rewrite E. constructor.
    - intros [H|[]]. discriminate H.
    - constructor; [intros []|constructor]. }
  assert (H2 : present (Scenario.newestId Scenario.milkDone)
                 (todos (ui Scenario.milkDone)))
    by (vm_compute; now left).
  split; [exact H1|]. split; [exact H2|].
  apply (delete_removes_one _ _ H1 H2).
Defined.

(** X9. The platform decides which dialog is shown and nothing else: on any
    platform [deleteTodo] and [clearCompleted] leave the same React state
    and read neither the clock nor the random source. *)
Theorem platform_only_changes_dialog :
  forall (o : OS) (m : Machine) (id0 : jsstring) (answer : bool),
    ui (exec (deleteTodo id0 answer) (onPlatform o m))
    = ui (exec (deleteTodo id0 answer) m) /\
    ui (exec (clearCompleted answer) (onPlatform o m))
    = ui (exec (clearCompleted answer) m) /\
    env (exec (deleteTodo id0 answer) (onPlatform o m)) = env (onPlatform o m) /\
    env (exec (clearCompleted answer) (onPlatform o m)) = env (onPlatform o m).
Proof.
  intros o m id0 answer. unfold exec.
  rewrite !deleteTodo_run, !clearCompleted_run.
  cbn [onPlatform ui env snd].
  destruct (existsb _ (todos (ui m))); repeat split.
Qed.

(* ================================================================== *)
(** ** What the events leave alone *)
(* ================================================================== *)

Lemma handle_out (e : Event) (m : Machine) :
  exists fx,
    out (exec (handle e) m) = out m ++ fx /\
    (fx = [] \/ fx = [emptyTitleNotice] \/ fx = [KeyboardDismiss]
     \/ fx = [FocusInputAfter 50]
     \/ fx = [deletePrompt (platform (env m))]
     \/ fx = [clearPrompt (platform (env m))]).
Proof.
  destruct e as [|id0|s| | | |f|id0|id0 a|a]; cbn [handle].
  - exists [FocusInputAfter 50]. split; [reflexivity|tauto].
  - unfold exec, openEditModal, bind, getState.
    destruct (List.find _ (todos (ui m))).
    + exists [FocusInputAfter 50]. split; [reflexivity|tauto].
    + exists []. split; [cbn; now rewrite app_nil_r|tauto].
  - exists []. split; [cbn; now rewrite app_nil_r|tauto].
  - destruct (trim (currentTitle (ui m))) as [|c r] eqn:Et.
    { exists [emptyTitleNotice]. unfold exec.
      rewrite (saveTodo_empty m Et). split; [reflexivity|tauto]. }
    assert (Hne : trim (currentTitle (ui m)) <> []) by (rewrite Et; discriminate).
    exists [KeyboardDismiss]. split; [|tauto].
    destruct (editingId (ui m)) as [[|x eid]|] eqn:Ee.
    + assert (Hc : creates m = true) by (unfold creates; now rewrite Et, Ee).
      unfold exec. now rewrite (saveTodo_create m Hc).
    + unfold exec.
      now rewrite (saveTodo_edit m (x :: eid) Ee); [|discriminate|exact Hne].
    + assert (Hc : creates m = true) by (unfold creates; now rewrite Et, Ee).
      unfold exec. now rewrite (saveTodo_create m Hc).
  - exists []. split; [cbn; now rewrite app_nil_r|tauto].
  - exists []. split; [cbn; now rewrite app_nil_r|tauto].
  - exists []. split; [cbn; now rewrite app_nil_r|tauto].
  - exists []. unfold exec. rewrite toggleComplete_run.
    split; [cbn; now rewrite app_nil_r|tauto].
  - exists [deletePrompt (platform (env m))]. unfold exec.
    rewrite deleteTodo_run. split; [reflexivity|tauto].
  - unfold exec. rewrite clearCompleted_run.
    destruct (existsb _ (todos (ui m))).
    + exists [clearPrompt (platform (env m))]. split; [reflexivity|tauto].
    + exists []. split; [cbn; now rewrite app_nil_r|tauto].
Qed.

(** X10. Opening the editor, typing, cancelling, dismissing the editor and
    picking a filter never touch the collection, never read the clock or
    the random source, and never report a failure: only Save, the checkbox,
    Delete and Clear Completed can change the todos. *)
Theorem session_events_keep_store :
  forall (e : Event) (m : Machine),
    storeEvent e = false ->
    todos (ui (exec (handle e) m)) = todos (ui m) /\
    env (exec (handle e) m) = env m /\
    reportsFailure (handle e) m = false.
Proof.
  intros e m He.
  assert (Henv : env (exec (handle e) m) = env m).
  { destruct e; try discriminate He; try reflexivity.
    cbn [handle]. unfold exec, openEditModal, bind, getState.
    now destruct (List.find _ (todos (ui m))). }
  assert (Hfx : reportsFailure (handle e) m = false).
  { unfold reportsFailure.
    destruct (handle_out e m) as [fx [Ho Hfx]].
    rewrite (emitted_app _ _ _ Ho).
    destruct Hfx as [-> | [-> | [-> | [-> | [-> | ->]]]]]; try reflexivity.
    - exfalso. destruct e; try discriminate He; cbn [handle] in Ho.
      all: try (apply app_inv_head in Ho; discriminate Ho).
      all: try (change (out m = out m ++ [emptyTitleNotice]) in Ho;
                rewrite <- (app_nil_r (out m)) in Ho at 1;
                apply app_inv_head in Ho; discriminate Ho).
      unfold exec, openEditModal, bind, getState in Ho.
      destruct (List.find _ (todos (ui m))); cbn in Ho.
      + apply app_inv_head in Ho. discriminate Ho.
      + rewrite <- (app_nil_r (out m)) in Ho at 1.
        apply app_inv_head in Ho. discriminate Ho.
    - now destruct (platform (env m)).
    - now destruct (platform (env m)). }
  split; [|split; assumption].
  destruct e; try discriminate He; try reflexivity.
  apply openEditModal_todos.
Qed.

(** A whole session that ends in Cancel. *)
Lemma session_events_keep_store_witness :
  storeEvent pressCancel = false /\
  todos (ui (exec (handle pressCancel) Scenario.blankDraft))
  = todos (ui Scenario.blankDraft).
Proof.
  split; [reflexivity|].
  apply (session_events_keep_store pressCancel Scenario.blankDraft eq_refl).
Defined.

Lemma run_out_known (es : list Event) :
  forall m, Forall knownNotice (out m) -> Forall knownNotice (out (run es m)).
Proof.
  induction es as [|e r IH]; intros m H; cbn [run]; [exact H|].
  apply IH. destruct (handle_out e m) as [fx [Ho Hfx]]. rewrite Ho.
  apply Forall_app. split; [exact H|].
  destruct Hfx as [-> | [-> | [-> | [-> | [-> | ->]]]]]; repeat constructor;
    unfold knownNotice; try (cbn; discriminate); try reflexivity.
  - destruct (platform (env m)); cbn; discriminate.
  - destruct (platform (env m)); cbn; discriminate.
Qed.

(** X11. Whatever the user does, the only failure the component ever
    reports is the 'Empty title' notice of [saveTodo]: every notice in the
    log of a session is that one. *)
Theorem only_empty_title_is_reported :
  forall (es : list Event) (w : World) (e : Effect),
    In e (out (run es (start w))) ->
    isNotice e = true ->
    e = emptyTitleNotice.
Proof.
  intros es w e Hin Hn.
  pose proof (run_out_known es (start w) (Forall_nil _)) as H.
  rewrite Forall_forall in H. now apply (H e Hin).
Qed.

(** Three blanks submitted, then absent ids toggled and deleted. *)
Lemma only_empty_title_is_reported_witness :
  let es := [pressAdd; changeText (lit "   "); pressSave;
             pressCheckbox (lit "x"); pressDelete (lit "x") true] in
  In emptyTitleNotice (out (run es (start Scenario.ticking))) /\
  emptyTitleNotice = emptyTitleNotice.
Proof.
  cbv zeta.
  assert (H : In emptyTitleNotice
                (out (run [pressAdd; changeText (lit "   "); pressSave;
                           pressCheckbox (lit "x"); pressDelete (lit "x") true]
                        (start Scenario.ticking))))
    by (vm_compute; right; now left).
  split; [exact H|].
  apply (only_empty_title_is_reported _ _ _ H eq_refl).
Defined.

Lemma Subseq_refl {A} (l : list A) : Subseq l l.
Proof. induction l; constructor; assumption. Qed.

Lemma Subseq_map {A B} (f : A -> B) (l' l : list A) :
  Subseq l' l -> Subseq (map f l') (map f l).
Proof. induction 1; simpl; constructor; assumption. Qed.

Lemma stamped_map {B} (f : Todo -> B) (p : Todo -> bool)
    (g : Todo -> Z -> Todo) (clk : nat -> Z) (l : list Todo) :
  forall k,
    (forall t z, In t l -> p t = true -> f (g t z) = f t) ->
    map f (stamped p g clk k l) = map f l.
Proof.
  induction l as [|x r IH]; intros k H; simpl; [reflexivity|].
  destruct (p x) eqn:E; simpl.
  - rewrite (H x _ (or_introl eq_refl) E). f_equal.
    apply IH. intros t z Ht. apply H. now right.
  - f_equal. apply IH. intros t z Ht. apply H. now right.
Qed.

(** X12. No event ever changes the id or the creation time of a todo, moves
    a todo, or adds one anywhere but in front: after any event the list of
    (id, createdAt) pairs is a subsequence of what it was, unless the event
    is a Save that creates, which puts one new todo in front of the
    unchanged collection. *)
Theorem keys_are_never_rewritten :
  forall (e : Event) (m : Machine),
    let l := todos (ui m) in
    let l' := todos (ui (exec (handle e) m)) in
    Subseq (map key l') (map key l)
    \/ (e = pressSave /\ creates m = true /\ exists t, l' = t :: l).
Proof.
  intros e m l l'. subst l l'.
  destruct (handle_todos e m)
    as [H|[[p [k H]]|[[_ [p [k H]]]|[[f H]|[He [Hc [c H]]]]]]]; rewrite H.
  - left. apply Subseq_refl.
  - left. rewrite stamped_map; [apply Subseq_refl|reflexivity].
  - left. rewrite stamped_map; [apply Subseq_refl|reflexivity].
  - left. apply Subseq_map, Subseq_filter.
  - right. eauto.
Qed.

(* ================================================================== *)
(** ** The editor and what Save does *)
(* ================================================================== *)

Lemma run_titleOk (es : list Event) :
  forall m, Forall titleOk (todos (ui m)) ->
            Forall titleOk (todos (ui (run es m))).
Proof.
  induction es as [|e r IH]; intros m H; cbn [run]; [exact H|].
  apply IH. now apply handle_titleOk.
Qed.

(** X13. In every state the component can reach, the editor says what Save
    will do with a draft whose trimmed form is non-empty: when a todo is
    being edited the heading is 'Edit Todo', the button 'Save', and
    submitting keeps the number of todos; otherwise the heading is 'New
    Todo', the button 'Add', and submitting adds one todo. *)
Theorem heading_matches_save :
  forall (es : list Event) (w : World),
    let m := run es (start w) in
    trim (currentTitle (ui m)) <> [] ->
    match editingId (ui m) with
    | Some _ =>
        modalTitle (ui m) = lit "Edit Todo" /\
        saveLabel (ui m) = lit "Save" /\
        List.length (todos (ui (exec saveTodo m))) = List.length (todos (ui m))
    | None =>
        modalTitle (ui m) = lit "New Todo" /\
        saveLabel (ui m) = lit "Add" /\
        List.length (todos (ui (exec saveTodo m)))
        = S (List.length (todos (ui m)))
    end.
Proof.
  intros es w m Ht.
  pose proof (proj2 (run_idsNonEmpty es (start w) (start_idsNonEmpty w))) as Hid.
  fold m in Hid. unfold modalTitle, saveLabel.
  destruct (editingId (ui m)) as [eid|] eqn:Ee.
  - specialize (Hid eid eq_refl).
    destruct eid as [|c eid]; [congruence|].
    split; [reflexivity|]. split; [reflexivity|].
    unfold exec. rewrite (saveTodo_edit m (c :: eid) Ee Hid Ht).
    apply stamped_length.
  - split; [reflexivity|]. split; [reflexivity|].
    assert (Hc : creates m = true).
    { unfold creates. rewrite Ee, (proj2 (truthy_true _) Ht). reflexivity. }
    unfold exec. now rewrite (saveTodo_create m Hc).
Qed.

(** "Task" selected and " Renamed " typed: the editor says Edit and Save. *)
Lemma heading_matches_save_witness :
  let m := run Scenario.renaming (start Scenario.ticking) in
  trim (currentTitle (ui m)) <> [] /\
  modalTitle (ui m) = lit "Edit Todo" /\
  List.length (todos (ui (exec saveTodo m))) = List.length (todos (ui m)).
Proof.
  cbv zeta.
  assert (H : trim (currentTitle
                (ui (run Scenario.renaming (start Scenario.ticking)))) <> [])
    by (vm_compute; discriminate).
  split; [exact H|].
  pose proof (heading_matches_save Scenario.renaming Scenario.ticking H) as R.
  cbv zeta in R.
  assert (E : editingId (ui (run Scenario.renaming (start Scenario.ticking)))
              = Some (Scenario.newestId Scenario.oneTask))
    by (vm_compute; reflexivity).
  rewrite E in R. split; apply R.
Defined.

(** X14. Selecting a todo and submitting the editor without typing changes
    nothing but [updatedAt]: in every reachable state where no two todos
    share an id, the ids, titles, completion flags and creation times of
    the collection are what they were, in the same order, and the editor
    is closed. *)
Theorem edit_without_typing_keeps_todos :
  forall (es : list Event) (w : World) (id0 : jsstring),
    let m := run es (start w) in
    let m' := run [pressEdit id0; pressSave] m in
    present id0 (todos (ui m)) ->
    NoDup (ids (todos (ui m))) ->
    map core (todos (ui m')) = map core (todos (ui m)) /\
    isModalVisible (ui m') = false /\
    editingId (ui m') = None.
Proof.
  intros es w id0 m m' Hp Hn.
  destruct (find_first _ _ Hp) as [l1 [t [l2 [Hl [_ [Hid Hf]]]]]].
  assert (Hin : In t (todos (ui m))).
  { rewrite Hl. apply in_or_app. right. now left. }
  pose proof (run_titleOk es (start w) (Forall_nil _)) as Hok. fold m in Hok.
  rewrite Forall_forall in Hok. destruct (Hok t Hin) as [Hne Htrim].
  pose proof (proj1 (run_idsNonEmpty es (start w) (start_idsNonEmpty w))) as Hids.
  fold m in Hids. rewrite Forall_forall in Hids.
  assert (Hid0 : id0 <> []) by (rewrite <- Hid; now apply Hids).
  set (m1 := exec (openEditModal id0) m).
  assert (E1 : m1 = mkMachine
     (mkState (todos (ui m)) (filter (ui m)) true (title t) (Some id0))
     (env m) (out m ++ [FocusInputAfter 50])).
  { unfold m1, exec. now rewrite (openEditModal_found id0 m t Hf). }
  assert (R : saveTodo m1 = (JsUndefined,
     mkMachine
       (saved (stamped (hasId id0) (retitled (title t))
                 (clock (env m)) (ticks (env m)) (todos (ui m))) (ui m1))
       (advance (count (hasId id0) (todos (ui m))) (env m))
       (out m1 ++ [KeyboardDismiss]))).
  { assert (H1 : editingId (ui m1) = Some id0) by (rewrite E1; reflexivity).
    assert (H2 : trim (currentTitle (ui m1)) = title t)
      by (rewrite E1; exact Htrim).
    assert (H3 : trim (currentTitle (ui m1)) <> [])
      by (rewrite H2; exact Hne).
    rewrite (saveTodo_edit m1 id0 H1 Hid0 H3), H2, E1. reflexivity. }
  assert (E' : m' = snd (saveTodo m1)) by reflexivity.
  rewrite E', R. cbn [snd ui saved todos isModalVisible editingId].
  split; [|split; reflexivity].
  apply stamped_map. intros u z Hu Hpu.
  assert (Eu : u = t).
  { apply (NoDup_ids_same _ _ _ Hn Hu Hin).
    unfold hasId in Hpu. apply str_eqb_eq in Hpu. congruence. }
  subst u. reflexivity.
Qed.

(** "Task" selected and submitted as it is. *)
Lemma edit_without_typing_keeps_todos_witness :
  let X := Scenario.newestId Scenario.oneTask in
  let m := run (Scenario.add "Task") (start Scenario.ticking) in
  present X (todos (ui m)) /\
  NoDup (ids (todos (ui m))) /\
  map core (todos (ui (run [pressEdit X; pressSave] m)))
  = map core (todos (ui m)).
Proof.
  cbv zeta.
  assert (H1 : present (Scenario.newestId Scenario.oneTask)
                 (todos (ui (run (Scenario.add "Task") (start Scenario.ticking)))))
    by (vm_compute; now left).
  assert (H2 : NoDup (ids (todos
                 (ui (run (Scenario.add "Task") (start Scenario.ticking)))))).
  { assert (E : ids (todos (ui (run (Scenario.add "Task")
                                  (start Scenario.ticking))))
                = [lit "1700000000000-k3x9q2"]) by (vm_compute; reflexivity).
    rewrite E. constructor; [intros []|constructor]. }
  split; [exact H1|]. split; [exact H2|].
  apply (edit_without_typing_keeps_todos (Scenario.add "Task")
           Scenario.ticking _ H1 H2).
Defined.

Lemma typed_save_run (s : jsstring) (m : Machine) :
  trim s <> [] ->
  run [changeText s; pressSave] m =
  match editingId (ui m) with
  | Some (c :: e) =>
      mkMachine
        (saved (stamped (hasId (c :: e)) (retitled (trim s))
                  (clock (env m)) (ticks (env m)) (todos (ui m))) (ui m))
        (advance (count (hasId (c :: e)) (todos (ui m))) (env m))
        (out m ++ [KeyboardDismiss])
  | _ =>
      mkMachine (saved (created m (trim s) :: todos (ui m)) (ui m))
        (mkWorld (platform (env m)) (clock (env m)) (S (S (ticks (env m))))
           (random36 (env m)) (S (draws (env m))))
        (out m ++ [KeyboardDismiss])
  end.
Proof.
  intros Hs. cbn [run handle].
  set (m1 := exec (setCurrentTitle s;; ret JsUndefined) m).
  assert (E1 : m1 = mkMachine
     (mkState (todos (ui m)) (filter (ui m)) (isModalVisible (ui m)) s
        (editingId (ui m))) (env m) (out m)) by reflexivity.
  assert (Hcreate : creates m1
                    = match editingId (ui m) with
                      | Some (_ :: _) => false
                      | _ => true
                      end).
  { rewrite E1. unfold creates. cbn [ui currentTitle editingId].
    now rewrite (proj2 (truthy_true _) Hs). }
  destruct (editingId (ui m)) as [[|c e]|] eqn:Ee.
  - unfold exec. rewrite (saveTodo_create m1 Hcreate), E1. reflexivity.
  - unfold exec. rewrite (saveTodo_edit m1 (c :: e)).
    + rewrite E1. reflexivity.
    + rewrite E1. reflexivity.
    + discriminate.
    + rewrite E1. exact Hs.
  - unfold exec. rewrite (saveTodo_create m1 Hcreate), E1. reflexivity.
Qed.

(** X15. White space around a title does not matter: typing a draft and
    submitting it leaves the machine exactly as typing its trimmed form and
    submitting would, when that form is non-empty. *)
Theorem surrounding_space_is_ignored :
  forall (m : Machine) (s : jsstring),
    trim s <> [] ->
    run [changeText s; pressSave] m = run [changeText (trim s); pressSave] m.
Proof.
  intros m s Hs.
  rewrite (typed_save_run s m Hs).
  rewrite (typed_save_run (trim s) m); rewrite trim_idem; [reflexivity|exact Hs].
Qed.

(** " Errand " and "Errand" typed into a new editor. *)
Lemma surrounding_space_is_ignored_witness :
  let m := run [pressAdd] Scenario.oneTask in
  trim (lit "  Errand ") = lit "Errand" /\
  run [changeText (lit "  Errand "); pressSave] m
  = run [changeText (trim (lit "  Errand ")); pressSave] m.
Proof.
  cbv zeta.
  assert (H : trim (lit "  Errand ") = lit "Errand") by (vm_compute; reflexivity).
  split; [exact H|].
  apply (surrounding_space_is_ignored (run [pressAdd] Scenario.oneTask)).
  rewrite H. discriminate.
Defined.

(* ================================================================== *)
(** ** Order and time *)
(* ================================================================== *)

(** What an event does to the clock and to the collection. *)
Lemma handle_step (e : Event) (m : Machine) :
  let l := todos (ui m) in
  let m' := exec (handle e) m in
  clock (env m') = clock (env m) /\
  (ticks (env m) <= ticks (env m'))%nat /\
  (todos (ui m') = l
   \/ (exists p g,
         (g = toggled \/ exists title0, g = retitled title0) /\
         todos (ui m') = stamped p g (clock (env m)) (ticks (env m)) l)
   \/ (exists f, todos (ui m') = List.filter f l)
   \/ (todos (ui m') = created m (trim (currentTitle (ui m))) :: l /\
       ticks (env m') = S (S (ticks (env m))))).
Proof.
  cbv zeta.
  assert (Hsame : forall m', clock (env m') = clock (env m) ->
                             ticks (env m') = ticks (env m) ->
                             todos (ui m') = todos (ui m) ->
    clock (env m') = clock (env m) /\
    (ticks (env m) <= ticks (env m'))%nat /\
    (todos (ui m') = todos (ui m)
     \/ (exists p g,
           (g = toggled \/ exists title0, g = retitled title0) /\
           todos (ui m')
           = stamped p g (clock (env m)) (ticks (env m)) (todos (ui m)))
     \/ (exists f, todos (ui m') = List.filter f (todos (ui m)))
     \/ (todos (ui m')
         = created m (trim (currentTitle (ui m))) :: todos (ui m) /\
         ticks (env m') = S (S (ticks (env m)))))).
  { intros m' H1 H2 H3. split; [exact H1|]. split; [lia|now left]. }
  assert (Hcreate : creates m = true ->
    clock (env (exec saveTodo m)) = clock (env m) /\
    (ticks (env m) <= ticks (env (exec saveTodo m)))%nat /\
    todos (ui (exec saveTodo m))
    = created m (trim (currentTitle (ui m))) :: todos (ui m) /\
    ticks (env (exec saveTodo m)) = S (S (ticks (env m)))).
  { intros Hc. unfold exec. rewrite (saveTodo_create m Hc). cbn.
    repeat split. lia. }
  destruct e as [|id0|s| | | |f|id0|id0 a|a]; cbn [handle].
  - now apply Hsame.
  - apply Hsame; unfold exec, openEditModal, bind, getState;
      now destruct (List.find _ (todos (ui m))).
  - now apply Hsame.
  - destruct (trim (currentTitle (ui m))) as [|c r] eqn:Et.
    { apply Hsame; unfold exec; now rewrite (saveTodo_empty m Et). }
    assert (Hne : trim (currentTitle (ui m)) <> []) by (rewrite Et; discriminate).
    destruct (editingId (ui m)) as [[|x eid]|] eqn:Ee.
    + destruct Hcreate as [H1 [H2 [H3 H4]]];
        [unfold creates; now rewrite Et, Ee|].
      tauto.
    + unfold exec.
      rewrite (saveTodo_edit m (x :: eid) Ee); [|discriminate|exact Hne].
      cbn. split; [reflexivity|]. split; [lia|].
      right; left.
      exists (hasId (x :: eid)), (retitled (trim (currentTitle (ui m)))).
      split; [right; eauto|reflexivity].
    + destruct Hcreate as [H1 [H2 [H3 H4]]];
        [unfold creates; now rewrite Et, Ee|].
      tauto.
  - now apply Hsame.
  - now apply Hsame.
  - now apply Hsame.
  - unfold exec. rewrite toggleComplete_run. cbn.
    split; [reflexivity|]. split; [lia|].
    right; left. exists (hasId id0), toggled. split; [now left|reflexivity].
  - unfold exec. rewrite deleteTodo_run. cbn.
    split; [reflexivity|]. split; [lia|].
    destruct a; [|now left]. right; right; left. eexists. reflexivity.
  - unfold exec. rewrite clearCompleted_run.
    destruct (existsb _ (todos (ui m))); [|now apply Hsame].
    cbn. split; [reflexivity|]. split; [lia|].
    destruct a; [|now left]. right; right; left. eexists. reflexivity.
Qed.

Lemma stamped_Forall_from (P Q : Todo -> Prop) (p : Todo -> bool)
    (g : Todo -> Z -> Todo) (clk : nat -> Z) (l : list Todo) :
  forall k,
    (forall t k', (k <= k')%nat -> P t -> Q (g t (clk k'))) ->
    (forall t, P t -> Q t) ->
    Forall P l -> Forall Q (stamped p g clk k l).
Proof.
  intros k Hg Hq Hl. revert k Hg.
  induction Hl as [|x r Hx Hr IH]; intros k Hg; simpl; [constructor|].
  destruct (p x); constructor; auto.
  apply IH. intros t k' Hk. apply Hg. lia.
Qed.

Lemma newestFirst_same_times (l : list Todo) :
  forall l', map createdAt l' = map createdAt l ->
             newestFirst l -> newestFirst l'.
Proof.
  induction l as [|t r IH]; intros [|t' r'] E H; simpl in E; try discriminate;
    [exact I|].
  injection E as Et Er. destruct H as [Hh Hr]. split; [|now apply IH].
  rewrite Et.
  apply (Forall_map createdAt (fun z => (z <= createdAt t)%Z)).
  rewrite Er.
  now apply (Forall_map createdAt (fun z => (z <= createdAt t)%Z)).
Qed.

Lemma newestFirst_filter (f : Todo -> bool) (l : list Todo) :
  newestFirst l -> newestFirst (List.filter f l).
Proof.
  induction l as [|t r IH]; simpl; [tauto|]. intros [Hh Hr].
  destruct (f t); simpl; [split|]; auto using Forall_filter.
Qed.

Lemma handle_newestFirst (e : Event) (m : Machine) :
  monotone (clock (env m)) ->
  createdBefore m /\ newestFirst (todos (ui m))
  /\ Forall stampedLater (todos (ui m)) ->
  createdBefore (exec (handle e) m)
  /\ newestFirst (todos (ui (exec (handle e) m)))
  /\ Forall stampedLater (todos (ui (exec (handle e) m))).
Proof.
  intros Hmono [Hb [Hn Hs]].
  destruct (handle_step e m) as [Hclk [Hticks Hcases]].
  unfold createdBefore in *. rewrite Hclk.
  set (P' := fun t : Todo =>
    forall k, (ticks (env (exec (handle e) m)) <= k)%nat ->
              (createdAt t <= clock (env m) k)%Z).
  assert (HP' : Forall P' (todos (ui m))).
  { eapply Forall_impl; [|exact Hb]. intros t Ht k Hk. apply Ht. lia. }
  destruct Hcases as [H|[[p [g [Hg H]]]|[[f H]|[H Hk2]]]]; rewrite H.
  - auto.
  - assert (Hc : forall t z, createdAt (g t z) = createdAt t)
      by (destruct Hg as [-> | [title0 ->]]; reflexivity).
    assert (Hu : forall t z, updatedAt (g t z) = Some z)
      by (destruct Hg as [-> | [title0 ->]]; reflexivity).
    split; [|split].
    + apply stamped_Forall; [|exact HP'].
      intros t z Ht k Hk. rewrite Hc. now apply Ht.
    + apply (newestFirst_same_times (todos (ui m))); [|exact Hn].
      apply stamped_map. intros t z _ _. apply Hc.
    + apply (stamped_Forall_from
               (fun t => (forall k, (ticks (env m) <= k)%nat ->
                                    (createdAt t <= clock (env m) k)%Z)
                         /\ stampedLater t) stampedLater).
      * intros t k' Hk [Ht _]. unfold stampedLater. rewrite Hu, Hc.
        now apply Ht.
      * intros t [_ Ht]. exact Ht.
      * now apply Forall_and.
  - auto using Forall_filter, newestFirst_filter.
  - split; [|split].
    + constructor; [|exact HP']. intros k Hk. cbn. apply Hmono. lia.
    + cbn [newestFirst]. split; [|exact Hn].
      eapply Forall_impl; [|exact Hb]. intros t Ht. cbn. apply Ht. lia.
    + constructor; [exact I|exact Hs].
Qed.

Lemma run_newestFirst (es : list Event) :
  forall m,
    monotone (clock (env m)) ->
    createdBefore m /\ newestFirst (todos (ui m))
    /\ Forall stampedLater (todos (ui m)) ->
    newestFirst (todos (ui (run es m)))
    /\ Forall stampedLater (todos (ui (run es m))).
Proof.
  induction es as [|e r IH]; intros m Hmono H; cbn [run]; [tauto|].
  apply IH.
  - now rewrite (proj1 (handle_step e m)).
  - now apply handle_newestFirst.
Qed.

(** X16. When the clock never goes back, every collection reached from the
    empty one is ordered newest first (no todo was created later than one
    before it in the list), and the [updatedAt] of a todo, when set, is not
    before its [createdAt]. *)
Theorem newest_first_on_monotone_clock :
  forall (es : list Event) (w : World),
    monotone (clock w) ->
    newestFirst (todos (ui (run es (start w)))) /\
    Forall stampedLater (todos (ui (run es (start w)))).
Proof.
  intros es w Hmono. apply run_newestFirst; [exact Hmono|].
  split; [constructor|]. split; [exact I|constructor].
Qed.

(** "Buy milk", "Walk dog", then "Buy milk" completed, on a clock that
    advances. *)
Lemma newest_first_on_monotone_clock_witness :
  let es := Scenario.add "Buy milk" ++ Scenario.add "Walk dog"
            ++ [pressCheckbox (lit "1700000000000-k3x9q2")] in
  monotone (clock Scenario.ticking) /\
  map updatedAt (todos (ui (run es (start Scenario.ticking))))
  = [None; Some 1700000000004%Z] /\
  newestFirst (todos (ui (run es (start Scenario.ticking)))).
Proof.
  cbv zeta.
  assert (H : monotone (clock Scenario.ticking)).
  { intros a b Hab. unfold Scenario.ticking. cbn [clock]. lia. }
  split; [exact H|]. split; [vm_compute; reflexivity|].
  apply (newest_first_on_monotone_clock _ _ H).
Defined.

(* ================================================================== *)
(** ** Ids *)
(* ================================================================== *)

Lemma nextId_generated (w : World) : generatedId (nextId w).
Proof.
  exists (clock w (ticks w)), (slice (random36 w (draws w)) 2 8).
  split; [reflexivity|]. unfold slice. cbn [Nat.sub].
  apply firstn_le_length.
Qed.

Lemma handle_generatedIds (e : Event) (m : Machine) :
  Forall (fun t => generatedId (id t)) (todos (ui m))
  /\ (forall x, editingId (ui m) = Some x -> generatedId x) ->
  Forall (fun t => generatedId (id t)) (todos (ui (exec (handle e) m)))
  /\ (forall x, editingId (ui (exec (handle e) m)) = Some x -> generatedId x).
Proof.
  intros [Hl He]. split.
  - destruct (handle_todos e m)
      as [H|[[p [k H]]|[[_ [p [k H]]]|[[f H]|[_ [_ [c H]]]]]]]; rewrite H.
    + exact Hl.
    + apply stamped_Forall; [|exact Hl]. intros t z Ht. exact Ht.
    + apply stamped_Forall; [|exact Hl]. intros t z Ht. exact Ht.
    + now apply Forall_filter.
    + constructor; [|exact Hl]. apply nextId_generated.
  - intros x Hx.
    destruct (handle_editingId e m) as [H|[H|[t [Hin H]]]]; rewrite H in Hx.
    + now apply He.
    + discriminate.
    + injection Hx as <-. rewrite Forall_forall in Hl. now apply Hl.
Qed.

(** X17. Every id the component ever holds is one it generated: in every
    reachable state the id of each todo, and the id of the edit session
    when there is one, is a decimal number, a dash and at most six code
    units; in particular it is never the empty string, which [saveTodo]
    would take for "no todo being edited". *)
Theorem ids_are_generated :
  forall (es : list Event) (w : World),
    let s := ui (run es (start w)) in
    Forall (fun t => generatedId (id t) /\ id t <> []) (todos s) /\
    (forall x, editingId s = Some x -> generatedId x /\ x <> []).
Proof.
  intros es w s. subst s.
  assert (Hne : forall x, generatedId x -> x <> []).
  { intros x [z [suffix [-> _]]]. apply decimal_sep_nonempty. }
  assert (G : forall m,
    Forall (fun t => generatedId (id t)) (todos (ui m))
    /\ (forall x, editingId (ui m) = Some x -> generatedId x) ->
    Forall (fun t => generatedId (id t)) (todos (ui (run es m)))
    /\ (forall x, editingId (ui (run es m)) = Some x -> generatedId x)).
  { induction es as [|e r IH]; intros m H; cbn [run]; [exact H|].
    apply IH. now apply handle_generatedIds. }
  destruct (G (start w)) as [G1 G2].
  { split; [constructor|]. cbn. discriminate. }
  split.
  - eapply Forall_impl; [|exact G1]. cbn. auto.
  - intros x Hx. specialize (G2 x Hx). auto.
Qed.

(* ================================================================== *)
(** ** The views after a clear *)
(* ================================================================== *)

Lemma clearCompleted_todos (m : Machine) :
  todos (ui (exec (clearCompleted true) m)) = activeOnly (todos (ui m)).
Proof.
  unfold exec. rewrite clearCompleted_run.
  destruct (existsb _ (todos (ui m))) eqn:E; [reflexivity|].
  cbn. unfold activeOnly. symmetry. apply forallb_filter_id.
  apply forallb_forall. intros t Ht.
  destruct (completed t) eqn:Ec; [|reflexivity].
  assert (X : existsb (fun t => completed t) (todos (ui m)) = true)
    by (apply existsb_exists; eauto).
  congruence.
Qed.

Lemma filter_twice {A} (p : A -> bool) (l : list A) :
  List.filter p (List.filter p l) = List.filter p l.
Proof.
  induction l as [|x l IH]; simpl; [reflexivity|].
  destruct (p x) eqn:E; simpl; [rewrite E; now f_equal|exact IH].
Qed.

Lemma filter_opposite {A} (p : A -> bool) (l : list A) :
  List.filter p (List.filter (fun x => negb (p x)) l) = [].
Proof.
  induction l as [|x l IH]; simpl; [reflexivity|].
  destruct (p x) eqn:E; simpl; [exact IH|now rewrite E].
Qed.

(** X18. After a confirmed [clearCompleted] the Completed view is empty,
    the Active view is the whole collection, and the Active view is what it
    was before the clear. *)
Theorem views_after_clear :
  forall m : Machine,
    let l := todos (ui m) in
    let l' := todos (ui (exec (clearCompleted true) m)) in
    visible l' completed_only = [] /\
    visible l' active = l' /\
    visible l' active = visible l active.
Proof.
  intros m l l'. subst l l'. rewrite clearCompleted_todos.
  unfold visible, filteredTodos, activeOnly. cbn [filter todos].
  split; [apply (filter_opposite completed)|].
  split; apply (filter_twice (fun t => negb (completed t))).
Qed.

(** X19. The Active and the Completed view split the collection: their
    lengths add up to the length of the All view, whatever the collection
    holds (todos that share an id or are equal included). *)
Theorem views_count_up :
  forall c : list Todo,
    List.length (visible c all)
    = (List.length (visible c active)
       + List.length (visible c completed_only))%nat.
Proof.
  intros c. unfold visible, filteredTodos. cbn [filter todos].
  apply (filter_partition_length completed).
Qed.
